(** * Federation appeal bot ([fedbot.py]): a shallow embedding and its properties

    The bot keeps one SQLite table, [appeals], and reacts to Telegram updates:
    the commands [/start], [/appeal], [/pending], [/approve], [/reject] and
    callback queries from inline keyboards.  Handlers are modelled as
    computations in a small monad that threads the table, records every
    outward call (replies, edits, direct messages, log lines, SQL statements)
    and propagates Python exceptions. *)

From Stdlib Require Import ZArith String Ascii List Lia Bool Sorted.
From Stdlib Require Import DecimalString DecimalPos.
Import ListNotations.
Local Open Scope string_scope.
Local Open Scope Z_scope.

(** ** Python built-ins used by the handlers

    Strings are byte strings (UTF-8).  [isdigit] and [int] give the answer
    of the built-ins on ASCII text ([isascii]); on other text the built-ins
    also take the decimal digits of other scripts, which needs the
    interpreter's Unicode tables, so a statement that depends on the answer
    for an argument says in a hypothesis which text it is about.  Command
    arguments never contain white space (the library splits the message text
    on it), so the stripping done by [int()] is not modelled. *)
Module Py.

Definition LF : string := String (ascii_of_nat 10) EmptyString.

Definition is_ascii_digit (c : ascii) : bool :=
  ((48 <=? N_of_ascii c) && (N_of_ascii c <=? 57))%N.

Definition digit_val (c : ascii) : Z := Z.of_N (N_of_ascii c) - 48.

(** [str.isascii()]: every byte is below 128. *)
Fixpoint isascii (s : string) : bool :=
  match s with
  | EmptyString => true
  | String c r => (N_of_ascii c <? 128)%N && isascii r
  end.

Fixpoint all_digits (s : string) : bool :=
  match s with
  | EmptyString => true
  | String c r => is_ascii_digit c && all_digits r
  end.

(** [str.isdigit()]: every character is a digit and there is at least one. *)
Definition isdigit (s : string) : bool :=
  match s with
  | EmptyString => false
  | _ => all_digits s
  end.

(** Digits after the first one of an [int()] literal: a single underscore
    may separate two digits. *)
Fixpoint int_digits (acc : Z) (s : string) : option Z :=
  match s with
  | EmptyString => Some acc
  | String c r =>
      if is_ascii_digit c then int_digits (10 * acc + digit_val c) r
      else if Ascii.eqb c "_" then
        match r with
        | String d r' =>
            if is_ascii_digit d then int_digits (10 * acc + digit_val d) r'
            else None
        | EmptyString => None
        end
      else None
  end.

Definition int_body (s : string) : option Z :=
  match s with
  | String c r => if is_ascii_digit c then int_digits (digit_val c) r else None
  | EmptyString => None
  end.

(** [int(s)] in base 10: [None] stands for [ValueError]. *)
Definition int (s : string) : option Z :=
  match s with
  | String "+" r => int_body r
  | String "-" r => option_map Z.opp (int_body r)
  | _ => int_body s
  end.

(** [str(n)] for an integer. *)
Definition str (n : Z) : string := NilZero.string_of_int (Z.to_int n).

Definition upper (c : ascii) : ascii :=
  let n := N_of_ascii c in
  if ((97 <=? n) && (n <=? 122))%N then ascii_of_N (n - 32) else c.

Definition lower (c : ascii) : ascii :=
  let n := N_of_ascii c in
  if ((65 <=? n) && (n <=? 90))%N then ascii_of_N (n + 32) else c.

Fixpoint map_string (f : ascii -> ascii) (s : string) : string :=
  match s with
  | EmptyString => EmptyString
  | String c r => String (f c) (map_string f r)
  end.

(** [str.lower()]; bytes outside ASCII stay, and no character outside ASCII
    has a lower case inside it except the Kelvin sign. *)
Definition str_lower (s : string) : string := map_string lower s.

(** [str.capitalize()]: first character upper-cased, the rest lower-cased. *)
Definition capitalize (s : string) : string :=
  match s with
  | EmptyString => EmptyString
  | String c r => String (upper c) (map_string lower r)
  end.

(** [sep.join(parts)]. *)
Fixpoint join (sep : string) (parts : list string) : string :=
  match parts with
  | [] => EmptyString
  | [p] => p
  | p :: ps => p ++ sep ++ join sep ps
  end.

(** Value of a non-empty ASCII digit string, as SQLite reads a text operand
    compared with an INTEGER column. *)
Fixpoint decimal (acc : Z) (s : string) : Z :=
  match s with
  | EmptyString => acc
  | String c r => decimal (10 * acc + digit_val c) r
  end.

End Py.

(** ** Enumerations *)

Inductive AppealType := UNBAN | ADMIN.

Inductive AppealStatus := PENDING | APPROVED | REJECTED.

Module AppealTypeEnum.
Definition value (t : AppealType) : string :=
  match t with UNBAN => "unban" | ADMIN => "admin" end.
End AppealTypeEnum.

Module AppealStatusEnum.
Definition value (s : AppealStatus) : string :=
  match s with
  | PENDING => "pending"
  | APPROVED => "approved"
  | REJECTED => "rejected"
  end.

Definition eqb (a b : AppealStatus) : bool :=
  match a, b with
  | PENDING, PENDING | APPROVED, APPROVED | REJECTED, REJECTED => true
  | _, _ => false
  end.
End AppealStatusEnum.

(** ** Exceptions, effects and the handler monad *)

Inductive exn :=
| ValueError (msg : string)
| IndexError
| TypeError (msg : string)
| OverflowError        (* sqlite3: Python int too large for an SQLite INTEGER *)
| IntegrityError       (* sqlite3: NOT NULL constraint failed *)
| OperationalError.    (* sqlite3: database or disk is full *)

Module Appeal.
(** One row of the [appeals] table, columns in declaration order.  The two
    TEXT columns [appeal_type] and [status] only ever receive the [value] of
    a member of the enumerations (for [status] the CHECK constraint says so),
    and are kept as the members themselves. *)
Record t := mk {
  id : Z;
  user_id : Z;
  username : string;
  appeal_type : AppealType;
  status : AppealStatus;
  timestamp : string
}.

Definition set_status (s : AppealStatus) (r : t) : t :=
  mk (id r) (user_id r) (username r) (appeal_type r) s (timestamp r).
End Appeal.

(** The table in rowid order, with the AUTOINCREMENT counter that SQLite keeps
    in [sqlite_sequence]. *)
Record Store := mkStore {
  rows : list Appeal.t;
  seq : Z
}.

Definition Button : Type := string * string.   (* label, callback_data *)
Definition Keyboard : Type := list (list Button).

Inductive Sql :=
| SqlInsert | SqlCount | SqlSelectPage | SqlUpdate | SqlSelectUser.

Inductive effect :=
| reply_text (text : string) (reply_markup : option Keyboard)
| edit_message_text (text : string)
| send_message (chat_id : Z) (text : string)
| logger_error (text : string)
| cursor_execute (q : Sql).

Record World := mkWorld {
  db : Store;
  out : list effect     (* outward calls, oldest first *)
}.

Inductive result (A : Type) :=
| Return (a : A)
| Raise (e : exn).
Arguments Return {A} a.
Arguments Raise {A} e.

Definition M (A : Type) : Type := World -> result A * World.

Definition ret {A} (a : A) : M A := fun w => (Return a, w).

Definition raise {A} (e : exn) : M A := fun w => (Raise e, w).

Definition bind {A B} (m : M A) (k : A -> M B) : M B :=
  fun w =>
    match m w with
    | (Return a, w') => k a w'
    | (Raise e, w') => (Raise e, w')
    end.

Notation "x <- m ;; k" := (bind m (fun x => k))
  (at level 61, m at next level, right associativity).
Notation "m ;;; k" := (bind m (fun _ => k))
  (at level 61, right associativity).

(** [try: body except ...: handler]; the handler decides which exceptions it
    takes and re-raises the others. *)
Definition try_except {A} (body : M A) (handler : exn -> M A) : M A :=
  fun w =>
    match body w with
    | (Return a, w') => (Return a, w')
    | (Raise e, w') => handler e w'
    end.

Definition emit (e : effect) : M unit :=
  fun w => (Return tt, mkWorld (db w) (out w ++ [e])).

Definition get_db : M Store := fun w => (Return (db w), w).

Definition put_db (s : Store) : M unit :=
  fun w => (Return tt, mkWorld s (out w)).

(** [with DB.get_connection() as conn: body]: the connection's context manager
    commits when the body ends normally (also on [return]) and rolls the
    table back when an exception leaves it. *)
Definition with_connection {A} (body : M A) : M A :=
  fun w =>
    match body w with
    | (Return a, w') => (Return a, w')
    | (Raise e, w') => (Raise e, mkWorld (db w) (out w'))
    end.

(** ** The storage engine, as far as the five statements of the bot use it *)
Module Sqlite.

Definition max_int64 : Z := 9223372036854775807.
Definition min_int64 : Z := -9223372036854775808.

(** Binding a Python [int] to a statement parameter. *)
Definition bind_int (n : Z) : M Z :=
  if (min_int64 <=? n) && (n <=? max_int64) then ret n
  else raise OverflowError.

Definition max_rowid (rs : list Appeal.t) : Z :=
  fold_right (fun r m => Z.max (Appeal.id r) m) 0 rs.

Definition is_pending (r : Appeal.t) : bool :=
  AppealStatusEnum.eqb (Appeal.status r) PENDING.

(** [LIMIT l OFFSET o]: a negative offset counts as 0, a negative limit as
    no limit. *)
Definition limit_offset (l o : Z) (rs : list Appeal.t) : list Appeal.t :=
  let rest := skipn (Z.to_nat o) rs in
  if l <? 0 then rest else firstn (Z.to_nat l) rest.

(** A text parameter compared with the INTEGER column [id]: a digit string
    is read as its number (one beyond 64 bits becomes a REAL, which equals no
    rowid, as here, rowids being at most [max_int64]); other text (the
    handlers pass none) equals no integer. *)
Definition text_as_integer (s : string) : option Z :=
  if Py.isdigit s then Some (Py.decimal 0 s) else None.

Definition id_matches (appeal_id : string) (r : Appeal.t) : bool :=
  match text_as_integer appeal_id with
  | Some n => Appeal.id r =? n
  | None => false
  end.

(** [INSERT INTO appeals (user_id, username, appeal_type, timestamp)
    VALUES (?, ?, ?, ?)]: the id is one more than the largest rowid ever
    used (AUTOINCREMENT), the status takes its default. *)
Definition insert_appeal (user_id : Z) (username : option string)
    (appeal_type : AppealType) (timestamp : string) : M unit :=
  emit (cursor_execute SqlInsert) ;;;
  uid <- bind_int user_id ;;
  s <- get_db ;;
  let last := Z.max (seq s) (max_rowid (rows s)) in
  if max_int64 <=? last then raise OperationalError
  else
    match username with
    | None => raise IntegrityError
    | Some name =>
        put_db (mkStore
                  (rows s ++ [Appeal.mk (last + 1) uid name appeal_type
                                        PENDING timestamp])
                  (last + 1))
    end.

(** [SELECT COUNT( * ) FROM appeals WHERE status='pending'] *)
Definition count_pending : M Z :=
  emit (cursor_execute SqlCount) ;;;
  s <- get_db ;;
  ret (Z.of_nat (length (filter is_pending (rows s)))).

(** [SELECT * FROM appeals WHERE status='pending' LIMIT ? OFFSET ?] *)
Definition select_pending (limit offset : Z) : M (list Appeal.t) :=
  emit (cursor_execute SqlSelectPage) ;;;
  l <- bind_int limit ;;
  o <- bind_int offset ;;
  s <- get_db ;;
  ret (limit_offset l o (filter is_pending (rows s))).

(** [UPDATE appeals SET status=? WHERE id=?]; the result is [rowcount]. *)
Definition update_status (status : AppealStatus) (appeal_id : string) : M Z :=
  emit (cursor_execute SqlUpdate) ;;;
  s <- get_db ;;
  put_db (mkStore
            (map (fun r => if id_matches appeal_id r
                           then Appeal.set_status status r else r)
                 (rows s))
            (seq s)) ;;;
  ret (Z.of_nat (length (filter (id_matches appeal_id) (rows s)))).

(** [SELECT user_id FROM appeals WHERE id=?] followed by [fetchone()]. *)
Definition select_user_id (appeal_id : string) : M (option Z) :=
  emit (cursor_execute SqlSelectUser) ;;;
  s <- get_db ;;
  ret (option_map Appeal.user_id (find (id_matches appeal_id) (rows s))).

End Sqlite.

(** [init_db()] on a fresh database file: the empty table. *)
Definition init_db : Store := mkStore [] 0.

(** ** Telegram updates *)

Module User.
Record t := mk {
  id : Z;
  username : option string    (* [None] for an account without a handle *)
}.
End User.

Record Update := mkUpdate {
  effective_user : User.t;      (* also [callback_query.from_user] *)
  callback_data : string        (* [callback_query.data] *)
}.

Record CallbackContext := mkContext {
  args : list string
}.

(** The two readings of [datetime.now()] taken while a selection is handled. *)
Record Clock := mkClock {
  isoformat : string;
  strftime : string             (* format [%H:%M %d-%m-%Y] *)
}.

(** ** Python function objects

    The handlers are called with positional arguments; a function object
    accepts exactly the number of parameters of its [def], and any other call
    raises [TypeError] before the body starts. *)
Inductive callable :=
| def2 (f : Update -> CallbackContext -> M unit)
| def3 (f : Update -> CallbackContext -> AppealStatus -> M unit).

Definition call2 (func : callable) (update : Update) (context : CallbackContext)
  : M unit :=
  match func with
  | def2 f => f update context
  | def3 _ => raise (TypeError "missing 1 required positional argument: 'status'")
  end.

Definition call3 (func : callable) (update : Update) (context : CallbackContext)
    (status : AppealStatus) : M unit :=
  match func with
  | def3 f => f update context status
  | def2 _ => raise (TypeError "takes 2 positional arguments but 3 were given")
  end.

(** Text of an exception inside an f-string; [repr] of a string is written
    with plain quotes, exact for text without quotes or escapes. *)
Definition repr (s : string) : string := "'" ++ s ++ "'".

Definition exn_str (e : exn) : string :=
  match e with
  | ValueError msg => msg
  | IndexError => "list index out of range"
  | TypeError msg => msg
  | OverflowError => "Python int too large to convert to SQLite INTEGER"
  | IntegrityError => "NOT NULL constraint failed: appeals.username"
  | OperationalError => "database or disk is full"
  end.

(** [AppealType(value)] *)
Definition AppealType_of_value (v : string) : M AppealType :=
  if String.eqb v "unban" then ret UNBAN
  else if String.eqb v "admin" then ret ADMIN
  else raise (ValueError (repr v ++ " is not a valid AppealType")).

(** [int(s)] *)
Definition py_int (s : string) : M Z :=
  match Py.int s with
  | Some n => ret n
  | None => raise (ValueError ("invalid literal for int() with base 10: " ++ repr s))
  end.

(** [str(x)] where [x] may be [None]. *)
Definition str_opt (x : option string) : string :=
  match x with Some s => s | None => "None" end.

(** ** The handlers *)

Section Bot.

(** [ADMIN_ID = int(os.getenv("ADMIN_ID", "0"))] *)
Variable ADMIN_ID : Z.

(** The decorator: whatever [func] is, the function it returns is [wrapper],
    a function of exactly two parameters. *)
Definition admin_only (func : callable) : callable :=
  def2 (fun update context =>
    if negb (User.id (effective_user update) =? ADMIN_ID) then
      emit (reply_text "⛔ Unauthorized access!" None)
    else
      call2 func update context).

Definition start (update : Update) (context : CallbackContext) : M unit :=
  emit (reply_text
          "📝 Use /appeal to submit a FedBan appeal or request Fed Admin status"
          None).

Definition appeal (update : Update) (context : CallbackContext) : M unit :=
  let keyboard :=
    [ [("🔓 Fed Unban Appeal", AppealTypeEnum.value UNBAN)];
      [("👑 Fed Admin Request", AppealTypeEnum.value ADMIN)] ] in
  emit (reply_text "Select appeal type:" (Some keyboard)).

Definition handle_appeal (now : Clock) (update : Update)
    (context : CallbackContext) : M unit :=
  let user := effective_user update in
  try_except
    (appeal_type <- AppealType_of_value (callback_data update) ;;
     with_connection
       (Sqlite.insert_appeal (User.id user) (User.username user)
                             appeal_type (isoformat now)) ;;;
     emit (edit_message_text
             ("✅ " ++ Py.capitalize (AppealTypeEnum.value appeal_type)
                ++ " appeal submitted!")) ;;;
     emit (send_message ADMIN_ID
             ("🚨 New Appeal" ++ Py.LF
                ++ "User: @" ++ str_opt (User.username user) ++ Py.LF
                ++ "Type: " ++ AppealTypeEnum.value appeal_type ++ Py.LF
                ++ "Time: " ++ strftime now ++ Py.LF ++ Py.LF
                ++ "Use /pending to view all appeals")))
    (fun e =>
       match e with
       | ValueError _ =>
           emit (logger_error ("Invalid appeal type: " ++ exn_str e)) ;;;
           emit (edit_message_text "❌ Invalid appeal type selected!")
       | _ => raise e
       end).

Definition render_appeal (a : Appeal.t) : string :=
  Py.LF ++ "ID: " ++ Py.str (Appeal.id a) ++ Py.LF
    ++ "User: @" ++ Appeal.username a
    ++ " (ID: " ++ Py.str (Appeal.user_id a) ++ ")" ++ Py.LF
    ++ "Type: " ++ AppealTypeEnum.value (Appeal.appeal_type a) ++ Py.LF
    ++ "Time: " ++ Appeal.timestamp a ++ Py.LF
    ++ "───────────────".

Definition page_keyboard (page limit total : Z) : list Button :=
  (if 0 <? page then [("⬅ Previous", "page_" ++ Py.str (page - 1))] else [])
    ++ (if (page + 1) * limit <? total
        then [("Next ➡", "page_" ++ Py.str (page + 1))] else []).

(** [InlineKeyboardMarkup([keyboard]) if keyboard else None] *)
Definition markup_if_any (keyboard : list Button) : option Keyboard :=
  match keyboard with
  | [] => None
  | _ => Some [keyboard]
  end.

(** The reply that [pending] builds from the results of its two queries. *)
Definition pending_reply (page limit total : Z) (appeals : list Appeal.t)
  : effect :=
  match appeals with
  | [] => reply_text "No pending appeals!" None
  | _ =>
      let response :=
        ("📋 Pending Appeals (Page " ++ Py.str (page + 1) ++ "):" ++ Py.LF)
          :: map render_appeal appeals in
      let keyboard := page_keyboard page limit total in
      reply_text (Py.join Py.LF response) (markup_if_any keyboard)
  end.

(** The function under [@admin_only] that the name [pending] is bound to
    before decoration. *)
Definition pending_def (update : Update) (context : CallbackContext) : M unit :=
  page <- match args context with
          | a :: _ => py_int a
          | [] => ret 0
          end ;;
  let limit := 5 in
  found <- with_connection
             (total <- Sqlite.count_pending ;;
              appeals <- Sqlite.select_pending limit (page * limit) ;;
              ret (total, appeals)) ;;
  let '(total, appeals) := found in
  emit (pending_reply page limit total appeals).

Definition pending : callable := admin_only (def2 pending_def).

(** The three-parameter function under [@admin_only]. *)
Definition resolve_appeal_def (update : Update) (context : CallbackContext)
    (status : AppealStatus) : M unit :=
  try_except
    (appeal_id <- match args context with
                  | a :: _ => ret a
                  | [] => raise IndexError
                  end ;;
     (if negb (Py.isdigit appeal_id)
      then raise (ValueError "Invalid appeal ID") else ret tt) ;;;
     found <- with_connection
                (rowcount <- Sqlite.update_status status appeal_id ;;
                 if rowcount =? 0 then
                   emit (reply_text "⚠ Appeal ID not found!" None) ;;;
                   ret None
                 else
                   row <- Sqlite.select_user_id appeal_id ;;
                   match row with
                   | Some user_id => ret (Some user_id)
                   | None =>
                       raise (TypeError "'NoneType' object is not subscriptable")
                   end) ;;
     match found with
     | None => ret tt
     | Some user_id =>
         emit (reply_text
                 (Py.capitalize (AppealStatusEnum.value status)
                    ++ " appeal #" ++ appeal_id) None) ;;;
         emit (send_message user_id
                 ("📨 Your appeal has been " ++ AppealStatusEnum.value status
                    ++ "!" ++ Py.LF ++ Py.LF
                    ++ "Reference ID: " ++ appeal_id))
     end)
    (fun e =>
       match e with
       | IndexError | ValueError _ =>
           emit (logger_error ("Error in resolve_appeal: " ++ exn_str e)) ;;;
           emit (reply_text
                   ("Usage: /" ++ AppealStatusEnum.value status ++ " <appeal_id>")
                   None)
       | _ =>
           emit (logger_error ("Unexpected error: " ++ exn_str e)) ;;;
           emit (reply_text "❌ Error processing request" None)
       end).

(** After decoration the module-level name [resolve_appeal] denotes the
    two-parameter [wrapper]. *)
Definition resolve_appeal : callable := admin_only (def3 resolve_appeal_def).

(** ** Dispatch, as [main] registers the handlers *)

Inductive Event :=
| Command (name : string) (update : Update) (context : CallbackContext)
| CallbackQuery (now : Clock) (update : Update) (context : CallbackContext).

Definition command_handlers
  : list (string * (Update -> CallbackContext -> M unit)) :=
  [ ("start", start);
    ("appeal", appeal);
    ("pending", fun u c => call2 pending u c);
    ("approve", fun u c => call3 resolve_appeal u c APPROVED);
    ("reject", fun u c => call3 resolve_appeal u c REJECTED) ].

Fixpoint lookup_handler (name : string)
    (hs : list (string * (Update -> CallbackContext -> M unit)))
  : option (Update -> CallbackContext -> M unit) :=
  match hs with
  | [] => None
  | (n, h) :: rest => if String.eqb n name then Some h else lookup_handler name rest
  end.

(** A [CommandHandler] compares the lower-cased command with its name; the
    command of a message is made of Latin letters, digits and underscores. *)
Definition dispatch (ev : Event) : M unit :=
  match ev with
  | Command name update context =>
      match lookup_handler (Py.str_lower name) command_handlers with
      | Some h => h update context
      | None => ret tt
      end
  | CallbackQuery now update context => handle_appeal now update context
  end.

(** The dispatcher catches whatever a handler raises and goes on with the
    next update; the table and the calls already made stay as they are. *)
Definition process_update (ev : Event) (w : World) : World :=
  snd (dispatch ev w).

Fixpoint run (evs : list Event) (w : World) : World :=
  match evs with
  | [] => w
  | ev :: rest => run rest (process_update ev w)
  end.

End Bot.

(** ** Reading replies *)

Definition markup_has (label : string) (m : option Keyboard) : bool :=
  match m with
  | None => false
  | Some kb => existsb (existsb (fun b : Button => String.eqb (fst b) label)) kb
  end.

(** Some reply among the outward calls carries a control with this label. *)
Definition attached (label : string) (o : list effect) : bool :=
  existsb (fun e => match e with
                    | reply_text _ m => markup_has label m
                    | _ => false
                    end) o.

Definition pending_rows (s : Store) : list Appeal.t :=
  filter Sqlite.is_pending (rows s).

(** What a selection handled to the end looks like. *)
Definition submitted (ADMIN_ID : Z) (now : Clock) (user : User.t) (name : string)
    (t : AppealType) (w : World) : World :=
  let last := Z.max (seq (db w)) (Sqlite.max_rowid (rows (db w))) in
  mkWorld
    (mkStore
       (rows (db w) ++ [Appeal.mk (last + 1) (User.id user) name t PENDING
                                  (isoformat now)])
       (last + 1))
    (out w ++ [cursor_execute SqlInsert;
               edit_message_text
                 ("✅ " ++ Py.capitalize (AppealTypeEnum.value t)
                    ++ " appeal submitted!");
               send_message ADMIN_ID
                 ("🚨 New Appeal" ++ Py.LF
                    ++ "User: @" ++ name ++ Py.LF
                    ++ "Type: " ++ AppealTypeEnum.value t ++ Py.LF
                    ++ "Time: " ++ strftime now ++ Py.LF ++ Py.LF
                    ++ "Use /pending to view all appeals")]).

Definition payload_type (data : string) : option AppealType :=
  if String.eqb data "unban" then Some UNBAN
  else if String.eqb data "admin" then Some ADMIN
  else None.

(** Ids grow along the table. *)
Definition ids_increasing (s : Store) : Prop :=
  StronglySorted Z.lt (map Appeal.id (rows s)).

(** ** Sample inputs *)
Module Sample.

Definition ADMIN : Z := 42.

Definition admin : User.t := User.mk 42 (Some "fedadmin").

Definition user7 : User.t := User.mk 7 (Some "seven").

Definition noon : Clock := mkClock "2024-01-01T12:00:00" "12:00 01-01-2024".

Definition select (data : string) : Event :=
  CallbackQuery noon (mkUpdate user7 data) (mkContext []).

Definition command (name : string) (user : User.t) (arguments : list string)
  : Event :=
  Command name (mkUpdate user EmptyString) (mkContext arguments).

(** The update of a command sent by the administrator. *)
Definition by_admin : Update := mkUpdate admin EmptyString.

Definition fresh : World := mkWorld init_db [].

Definition one_pending : World := run ADMIN [select "unban"] fresh.

Definition seven_pending : World := run ADMIN (repeat (select "admin") 7) fresh.

(** A table left by an earlier deployment, holding a resolved appeal. *)
Definition one_approved : World :=
  mkWorld
    (mkStore [Appeal.mk 1 7 "seven" UNBAN APPROVED "2024-01-01T12:00:00"] 1) [].

End Sample.

(** ** Vocabulary for statements about runs *)

Definition is_command (ev : Event) : bool :=
  match ev with
  | Command _ _ _ => true
  | CallbackQuery _ _ _ => false
  end.

(** The names that [main] registers a [CommandHandler] for. *)
Definition registered_commands : list string :=
  ["start"; "appeal"; "pending"; "approve"; "reject"].

(** The ids of the table are 1, 2, ..., n in row order, and the
    AUTOINCREMENT counter stands at n. *)
Definition consecutive_ids (s : Store) : Prop :=
  map Appeal.id (rows s) = map Z.of_nat (List.seq 1 (length (rows s)))
  /\ seq s = Z.of_nat (length (rows s)).

(** Page [k] of a list of rows, as [pending] asks the engine for it. *)
Definition page_of (k : Z) (l : list Appeal.t) : list Appeal.t :=
  Sqlite.limit_offset 5 (k * 5) l.

(** The table after [UPDATE appeals SET status=? WHERE id=?]. *)
Definition with_status (status : AppealStatus) (appeal_id : string)
    (s : Store) : Store :=
  mkStore
    (map (fun r => if Sqlite.id_matches appeal_id r
                   then Appeal.set_status status r else r)
         (rows s))
    (seq s).

(** Further sample values. *)
Module Fixtures.

(** An account that has set no handle. *)
Definition nameless : User.t := User.mk 8 None.

Definition the_row : Appeal.t :=
  Appeal.mk 1 7 "seven" UNBAN PENDING "2024-01-01T12:00:00".

Definition approved_row : Appeal.t :=
  Appeal.mk 1 7 "seven" UNBAN APPROVED "2024-01-01T12:00:00".

(** A sender whose id does not fit a 64-bit integer. *)
Definition huge_id : User.t := User.mk 9223372036854775808 (Some "huge").

(** The clock three seconds after [Sample.noon]. *)
Definition later : Clock := mkClock "2024-01-01T12:00:03" "12:00 01-01-2024".

End Fixtures.

(** ** Operations on the table

    An update delivered through the dispatcher, or a resolution: what the
    two lambdas of [main] ask for, the three-parameter function of
    [resolve_appeal] applied to the update, the context and one of the two
    statuses.  As [main] is wired a resolution is never performed, the call
    stopping at the wrapper of [admin_only]; the operations below let the
    UPDATE be followed all the same. *)
Inductive Operation :=
| Deliver (ev : Event)
| Approve (update : Update) (context : CallbackContext)
| Reject (update : Update) (context : CallbackContext).

Definition perform (ADMIN_ID : Z) (op : Operation) (w : World) : World :=
  match op with
  | Deliver ev => process_update ADMIN_ID ev w
  | Approve update context =>
      snd (resolve_appeal_def update context APPROVED w)
  | Reject update context =>
      snd (resolve_appeal_def update context REJECTED w)
  end.

Fixpoint perform_all (ADMIN_ID : Z) (ops : list Operation) (w : World)
  : World :=
  match ops with
  | [] => w
  | op :: rest => perform_all ADMIN_ID rest (perform ADMIN_ID op w)
  end.

(** The first argument of the command is the id of this row. *)
Definition names (context : CallbackContext) (r : Appeal.t) : bool :=
  match args context with
  | a :: _ => Sqlite.id_matches a r
  | [] => false
  end.

(** The status of a row after one operation. *)
Definition status_after (op : Operation) (r : Appeal.t) : AppealStatus :=
  match op with
  | Deliver _ => Appeal.status r
  | Approve _ context => if names context r then APPROVED else Appeal.status r
  | Reject _ context => if names context r then REJECTED else Appeal.status r
  end.

(** * Properties *)

Ltac unfold_m :=
  unfold bind, try_except, with_connection, emit, ret, raise, get_db, put_db
    in *.

Section Properties.

Variable ADMIN_ID : Z.

(** *** The decorated [resolve_appeal] cannot be called with a status *)

Lemma resolve_appeal_call_raises (update : Update) (context : CallbackContext)
    (status : AppealStatus) (w : World) :
  call3 (resolve_appeal ADMIN_ID) update context status w
  = (Raise (TypeError "takes 2 positional arguments but 3 were given"), w).
Proof. reflexivity. Qed.

Lemma resolve_appeal_two_args_raises (update : Update) (context : CallbackContext)
    (w : World) :
  User.id (effective_user update) = ADMIN_ID ->
  call2 (resolve_appeal ADMIN_ID) update context w
  = (Raise (TypeError "missing 1 required positional argument: 'status'"), w).
Proof.
  intros Hadm. cbn. rewrite Hadm, Z.eqb_refl. reflexivity.
Qed.

(** *** What each handler does to the table *)

Lemma pending_def_db (update : Update) (context : CallbackContext) (w : World) :
  db (snd (pending_def update context w)) = db w.
Proof.
  unfold pending_def, py_int, Sqlite.count_pending, Sqlite.select_pending,
    Sqlite.bind_int.
  unfold_m.
  destruct (args context) as [|a rest]; cbn.
  - reflexivity.
  - destruct (Py.int a) as [page|]; cbn; [|reflexivity].
    destruct ((Sqlite.min_int64 <=? page * 5) && (page * 5 <=? Sqlite.max_int64));
      reflexivity.
Qed.

Lemma handle_appeal_invalid (now : Clock) (update : Update)
    (context : CallbackContext) (w : World) :
  String.eqb (callback_data update) "unban" = false ->
  String.eqb (callback_data update) "admin" = false ->
  handle_appeal ADMIN_ID now update context w
  = (Return tt,
     mkWorld (db w)
       (out w ++ [logger_error
                    ("Invalid appeal type: " ++ repr (callback_data update)
                       ++ " is not a valid AppealType");
                  edit_message_text "❌ Invalid appeal type selected!"])).
Proof.
  intros Hu Ha.
  unfold handle_appeal, AppealType_of_value. unfold_m.
  rewrite Hu, Ha. cbn. rewrite <- app_assoc. reflexivity.
Qed.

Lemma handle_appeal_valid (now : Clock) (update : Update)
    (context : CallbackContext) (w : World) (t : AppealType) (name : string) :
  payload_type (callback_data update) = Some t ->
  User.username (effective_user update) = Some name ->
  Sqlite.min_int64 <= User.id (effective_user update) <= Sqlite.max_int64 ->
  Z.max (seq (db w)) (Sqlite.max_rowid (rows (db w))) < Sqlite.max_int64 ->
  handle_appeal ADMIN_ID now update context w
  = (Return tt, submitted ADMIN_ID now (effective_user update) name t w).
Proof.
  intros Ht Hname Hid Hlast.
  assert (Hparse : AppealType_of_value (callback_data update) w = (Return t, w)).
  { unfold AppealType_of_value, payload_type in *.
    destruct (String.eqb (callback_data update) "unban");
      [injection Ht as <-; reflexivity|].
    destruct (String.eqb (callback_data update) "admin");
      [injection Ht as <-; reflexivity|discriminate]. }
  unfold handle_appeal, Sqlite.insert_appeal, Sqlite.bind_int, submitted.
  unfold_m. rewrite Hparse. cbn.
  replace ((Sqlite.min_int64 <=? User.id (effective_user update))
           && (User.id (effective_user update) <=? Sqlite.max_int64)) with true
    by (symmetry; apply andb_true_iff; split; apply Z.leb_le; lia).
  cbn.
  replace (Sqlite.max_int64 <=?
           Z.max (seq (db w)) (Sqlite.max_rowid (rows (db w)))) with false
    by (symmetry; apply Z.leb_gt; lia).
  rewrite Hname. cbn. repeat rewrite <- app_assoc. reflexivity.
Qed.

Lemma handle_appeal_db (now : Clock) (update : Update)
    (context : CallbackContext) (w : World) :
  db (snd (handle_appeal ADMIN_ID now update context w)) = db w
  \/ exists name t,
       db (snd (handle_appeal ADMIN_ID now update context w))
       = db (submitted ADMIN_ID now (effective_user update) name t w).
Proof.
  unfold handle_appeal, AppealType_of_value, Sqlite.insert_appeal,
    Sqlite.bind_int, submitted.
  unfold_m.
  set (uid := User.id (effective_user update)).
  destruct (String.eqb (callback_data update) "unban"); cbn.
  - destruct ((Sqlite.min_int64 <=? uid) && (uid <=? Sqlite.max_int64)); cbn;
      [|left; reflexivity].
    destruct (Sqlite.max_int64 <=? _); cbn; [left; reflexivity|].
    destruct (User.username (effective_user update)) as [name|]; cbn;
      [right; exists name, UNBAN; reflexivity | left; reflexivity].
  - destruct (String.eqb (callback_data update) "admin"); cbn;
      [|left; reflexivity].
    destruct ((Sqlite.min_int64 <=? uid) && (uid <=? Sqlite.max_int64)); cbn;
      [|left; reflexivity].
    destruct (Sqlite.max_int64 <=? _); cbn; [left; reflexivity|].
    destruct (User.username (effective_user update)) as [name|]; cbn;
      [right; exists name, ADMIN; reflexivity | left; reflexivity].
Qed.

(** One update either leaves the table as it is or appends one pending row
    whose id is one more than the largest id used so far. *)
Lemma process_update_db (ev : Event) (w : World) :
  db (process_update ADMIN_ID ev w) = db w
  \/ exists r,
       rows (db (process_update ADMIN_ID ev w)) = (rows (db w) ++ [r])%list
       /\ Appeal.status r = PENDING
       /\ Appeal.id r
          = Z.max (seq (db w)) (Sqlite.max_rowid (rows (db w))) + 1
       /\ seq (db (process_update ADMIN_ID ev w)) = Appeal.id r.
Proof.
  unfold process_update.
  destruct ev as [name update context | now update context]; cbn [dispatch].
  - left.
    unfold command_handlers. cbn [lookup_handler].
    repeat match goal with
           | |- context [String.eqb ?a (Py.str_lower name)] =>
               destruct (String.eqb a (Py.str_lower name))
           end; try reflexivity.
    cbn -[pending_def].
    destruct (negb (User.id (effective_user update) =? ADMIN_ID));
      [reflexivity | apply pending_def_db].
  - destruct (handle_appeal_db now update context w) as [H | (name & t & H)].
    + left. exact H.
    + right. rewrite H. cbn. eexists. repeat split.
Qed.

(** *** Rows are only ever appended *)

Lemma run_rows_prefix (evs : list Event) (w : World) :
  exists extra,
    rows (db (run ADMIN_ID evs w)) = (rows (db w) ++ extra)%list
    /\ Forall (fun r => Appeal.status r = PENDING) extra.
Proof.
  revert w. induction evs as [|ev evs IH]; intros w; cbn [run].
  - exists []. rewrite app_nil_r. split; [reflexivity | constructor].
  - destruct (IH (process_update ADMIN_ID ev w)) as (extra & Hrows & Hpend).
    destruct (process_update_db ev w) as [Hsame | (r & Hr & Hst & _)].
    + exists extra. rewrite Hrows, Hsame. split; [reflexivity | exact Hpend].
    + exists (r :: extra). rewrite Hrows, Hr, <- app_assoc.
      split; [reflexivity | constructor; assumption].
Qed.

Lemma run_keeps_row (evs : list Event) (w : World) (i : nat) (r : Appeal.t) :
  nth_error (rows (db w)) i = Some r ->
  nth_error (rows (db (run ADMIN_ID evs w))) i = Some r.
Proof.
  intros Hi.
  destruct (run_rows_prefix evs w) as (extra & Hrows & _).
  rewrite Hrows, nth_error_app1; [exact Hi|].
  apply nth_error_Some. congruence.
Qed.

(** Started on an empty table, the bot only ever holds pending appeals. *)
Lemma fresh_run_all_pending (evs : list Event) (o : list effect) :
  Forall (fun r => Appeal.status r = PENDING)
    (rows (db (run ADMIN_ID evs (mkWorld init_db o)))).
Proof.
  destruct (run_rows_prefix evs (mkWorld init_db o)) as (extra & -> & Hpend).
  exact Hpend.
Qed.

Lemma run_app (evs1 evs2 : list Event) (w : World) :
  run ADMIN_ID (evs1 ++ evs2) w = run ADMIN_ID evs2 (run ADMIN_ID evs1 w).
Proof.
  revert w. induction evs1 as [|ev evs1 IH]; intros w; cbn; [reflexivity|].
  apply IH.
Qed.

(** *** Ids *)

Lemma max_rowid_ge (rs : list Appeal.t) (r : Appeal.t) :
  In r rs -> Appeal.id r <= Sqlite.max_rowid rs.
Proof.
  unfold Sqlite.max_rowid.
  induction rs as [|a rs IH]; cbn [fold_right In]; [tauto|].
  intros [-> | Hin]; [lia|]. specialize (IH Hin). lia.
Qed.

Lemma sorted_snoc (l : list Z) (x : Z) :
  StronglySorted Z.lt l -> Forall (fun y => y < x) l ->
  StronglySorted Z.lt (l ++ [x]).
Proof.
  induction 1 as [|a l Hs IH Ha]; intros Hlt; cbn.
  - repeat constructor.
  - inversion Hlt as [|? ? Hax Hl]; subst.
    constructor; [apply IH; exact Hl|].
    apply Forall_app. split; [exact Ha | repeat constructor; exact Hax].
Qed.

Lemma sorted_NoDup (l : list Z) : StronglySorted Z.lt l -> NoDup l.
Proof.
  induction 1 as [|a l Hs IH Ha]; constructor; [|exact IH].
  intros Hin. rewrite Forall_forall in Ha. specialize (Ha a Hin). lia.
Qed.

Lemma process_update_ids_increasing (ev : Event) (w : World) :
  ids_increasing (db w) -> ids_increasing (db (process_update ADMIN_ID ev w)).
Proof.
  unfold ids_increasing. intros Hs.
  destruct (process_update_db ev w) as [Hsame | (r & Hr & _ & Hid & _)].
  - rewrite Hsame. exact Hs.
  - rewrite Hr, map_app. apply sorted_snoc; [exact Hs|].
    apply Forall_forall. intros y Hy. apply in_map_iff in Hy.
    destruct Hy as (r0 & <- & Hin). apply max_rowid_ge in Hin. lia.
Qed.

Lemma run_ids_increasing (evs : list Event) (w : World) :
  ids_increasing (db w) -> ids_increasing (db (run ADMIN_ID evs w)).
Proof.
  revert w. induction evs as [|ev evs IH]; intros w Hs; cbn [run];
    [exact Hs|].
  apply IH, process_update_ids_increasing, Hs.
Qed.

(** *** The pending list *)

Lemma limit_offset_length (k : Z) (l : list Appeal.t) :
  0 <= k ->
  Z.of_nat (length (Sqlite.limit_offset 5 (k * 5) l))
  = Z.max 0 (Z.min 5 (Z.of_nat (length l) - 5 * k)).
Proof.
  intros Hk. unfold Sqlite.limit_offset. cbn [Z.ltb Z.compare].
  rewrite length_firstn, length_skipn. lia.
Qed.

Lemma pending_def_page (update : Update) (context : CallbackContext)
    (w : World) (k : Z) :
  (args context = [] /\ k = 0
   \/ exists a rest, args context = a :: rest /\ Py.int a = Some k) ->
  Sqlite.min_int64 <= k * 5 <= Sqlite.max_int64 ->
  pending_def update context w
  = (Return tt,
     mkWorld (db w)
       (out w ++ [cursor_execute SqlCount; cursor_execute SqlSelectPage;
                  pending_reply k 5
                    (Z.of_nat (length (pending_rows (db w))))
                    (Sqlite.limit_offset 5 (k * 5) (pending_rows (db w)))])).
Proof.
  intros Hargs Hrange.
  assert (Hb : (Sqlite.min_int64 <=? k * 5) && (k * 5 <=? Sqlite.max_int64)
               = true)
    by (apply andb_true_iff; split; apply Z.leb_le; lia).
  unfold pending_def, py_int, Sqlite.count_pending, Sqlite.select_pending,
    Sqlite.bind_int, pending_rows.
  unfold_m.
  destruct Hargs as [(Hnil & ->) | (a & rest & Hcons & Hint)].
  - rewrite Hnil. cbn. repeat rewrite <- app_assoc. reflexivity.
  - rewrite Hcons, Hint. cbn. rewrite Hb. cbn.
    repeat rewrite <- app_assoc. reflexivity.
Qed.

Lemma page_keyboard_next (k total : Z) :
  markup_has "Next ➡" (markup_if_any (page_keyboard k 5 total)) = true
  <-> 5 * (k + 1) < total.
Proof.
  unfold page_keyboard, markup_if_any.
  destruct (0 <? k); destruct ((k + 1) * 5 <? total) eqn:Hn; cbn -[Z.mul Z.add];
    (apply Z.ltb_lt in Hn || apply Z.ltb_ge in Hn);
    split; intros H; try discriminate; try reflexivity; lia.
Qed.

Lemma page_keyboard_previous (k total : Z) :
  markup_has "⬅ Previous" (markup_if_any (page_keyboard k 5 total)) = true
  <-> 0 < k.
Proof.
  unfold page_keyboard, markup_if_any.
  destruct (0 <? k) eqn:Hp; destruct ((k + 1) * 5 <? total); cbn -[Z.mul Z.add];
    (apply Z.ltb_lt in Hp || apply Z.ltb_ge in Hp);
    split; intros H; try discriminate; try reflexivity; lia.
Qed.

Lemma dispatch_pending (update : Update) (context : CallbackContext) :
  dispatch ADMIN_ID (Command "pending" update context)
  = call2 (pending ADMIN_ID) update context.
Proof. reflexivity. Qed.

Lemma pending_as_admin (update : Update) (context : CallbackContext) (w : World) :
  User.id (effective_user update) = ADMIN_ID ->
  call2 (pending ADMIN_ID) update context w = pending_def update context w.
Proof.
  intros Hadm. cbn -[pending_def]. rewrite Hadm, Z.eqb_refl. reflexivity.
Qed.

Lemma pending_as_other (update : Update) (context : CallbackContext) (w : World) :
  User.id (effective_user update) <> ADMIN_ID ->
  dispatch ADMIN_ID (Command "pending" update context) w
  = (Return tt,
     mkWorld (db w) (out w ++ [reply_text "⛔ Unauthorized access!" None])).
Proof.
  intros Hadm. rewrite dispatch_pending. cbn -[pending_def].
  apply Z.eqb_neq in Hadm. rewrite Hadm. reflexivity.
Qed.

Lemma pending_bad_page (update : Update) (w : World) (a : string)
    (rest : list string) :
  User.id (effective_user update) = ADMIN_ID ->
  Py.int a = None ->
  dispatch ADMIN_ID (Command "pending" update (mkContext (a :: rest))) w
  = (Raise (ValueError ("invalid literal for int() with base 10: " ++ repr a)),
     w).
Proof.
  intros Hadm Hint. rewrite dispatch_pending, pending_as_admin by exact Hadm.
  unfold pending_def, py_int. unfold_m. cbn [args]. rewrite Hint. reflexivity.
Qed.

(** C4 (as amended).  For an administrator's [/pending] with page number [k],
    [0 <= k] and [5 * k] within the storage engine's 64-bit integers, the two
    queries are made and one reply is sent; the page holds
    [max 0 (min 5 (total - 5 * k))] of the [total] pending appeals; the "next"
    control is attached iff [5 * (k + 1) < total]; an empty page gives the
    empty-state message with no control at all; a non-empty page lists its
    appeals and carries the "previous" control iff [k > 0]. *)
Theorem pending_page_listing (update : Update) (context : CallbackContext)
    (w : World) (k : Z) :
  User.id (effective_user update) = ADMIN_ID ->
  (args context = [] /\ k = 0
   \/ exists a rest, args context = a :: rest /\ Py.int a = Some k) ->
  0 <= k ->
  5 * k <= Sqlite.max_int64 ->
  let total := Z.of_nat (length (pending_rows (db w))) in
  let page := Sqlite.limit_offset 5 (k * 5) (pending_rows (db w)) in
  Z.of_nat (length page) = Z.max 0 (Z.min 5 (total - 5 * k))
  /\ exists text markup,
       dispatch ADMIN_ID (Command "pending" update context) w
       = (Return tt,
          mkWorld (db w)
            (out w ++ [cursor_execute SqlCount; cursor_execute SqlSelectPage;
                       reply_text text markup]))
       /\ (markup_has "Next ➡" markup = true <-> 5 * (k + 1) < total)
       /\ (page = [] -> text = "No pending appeals!" /\ markup = None)
       /\ (page <> [] ->
           text = Py.join Py.LF
                    (("📋 Pending Appeals (Page " ++ Py.str (k + 1) ++ "):"
                        ++ Py.LF) :: map render_appeal page)
           /\ (markup_has "⬅ Previous" markup = true <-> 0 < k)).
Proof.
  intros Hadm Hargs Hk Hrange total page.
  assert (Hlen : Z.of_nat (length page) = Z.max 0 (Z.min 5 (total - 5 * k)))
    by (apply limit_offset_length; exact Hk).
  split; [exact Hlen|].
  rewrite dispatch_pending, pending_as_admin by exact Hadm.
  rewrite (pending_def_page update context w k Hargs)
    by (unfold Sqlite.min_int64, Sqlite.max_int64 in *; lia).
  fold total. fold page.
  destruct page as [|r page'] eqn:Hpage.
  - exists "No pending appeals!", None. cbn [pending_reply].
    split; [reflexivity|]. split; [|split; [tauto | congruence]].
    cbn [markup_has length Z.of_nat] in *.
    split; [discriminate | lia].
  - eexists _, _. cbn [pending_reply].
    split; [reflexivity|]. split; [apply page_keyboard_next|].
    split; [discriminate|]. intros _.
    split; [reflexivity | apply page_keyboard_previous].
Qed.

(** *** Status and the other columns over time *)

(** C10.  Whatever updates are processed, an existing row keeps its id,
    user_id, username, appeal_type and timestamp. *)
Theorem fixed_columns_never_change (evs : list Event) (w : World) (i : nat)
    (r : Appeal.t) :
  nth_error (rows (db w)) i = Some r ->
  exists r',
    nth_error (rows (db (run ADMIN_ID evs w))) i = Some r'
    /\ Appeal.id r' = Appeal.id r
    /\ Appeal.user_id r' = Appeal.user_id r
    /\ Appeal.username r' = Appeal.username r
    /\ Appeal.appeal_type r' = Appeal.appeal_type r
    /\ Appeal.timestamp r' = Appeal.timestamp r.
Proof.
  intros Hi. exists r. split; [apply run_keeps_row, Hi|].
  repeat split.
Qed.

(** *** Selections *)

(** C7.  A callback whose payload is neither [unban] nor [admin] leaves the
    table as it is; the handler logs the error and edits the message to the
    invalid-selection text. *)
Theorem invalid_selection_inserts_nothing (now : Clock) (update : Update)
    (context : CallbackContext) (w : World) :
  callback_data update <> "unban" ->
  callback_data update <> "admin" ->
  dispatch ADMIN_ID (CallbackQuery now update context) w
  = (Return tt,
     mkWorld (db w)
       (out w ++ [logger_error
                    ("Invalid appeal type: " ++ repr (callback_data update)
                       ++ " is not a valid AppealType");
                  edit_message_text "❌ Invalid appeal type selected!"])).
Proof.
  intros Hu Ha. cbn [dispatch].
  apply handle_appeal_invalid; apply String.eqb_neq; assumption.
Qed.

(** C3.  Every callback query goes to [handle_appeal]; a tap on a control
    that [/pending] attached (payload [page_k]) is therefore taken for an
    appeal type, fails to parse, inserts nothing and only edits the message
    to the invalid-selection text: no other page is shown. *)
Theorem pagination_tap_is_invalid_selection (now : Clock) (user : User.t)
    (context : CallbackContext) (w : World) (page limit total : Z)
    (b : Button) :
  In b (page_keyboard page limit total) ->
  (forall data,
     dispatch ADMIN_ID (CallbackQuery now (mkUpdate user data) context)
     = handle_appeal ADMIN_ID now (mkUpdate user data) context)
  /\ (exists n, snd b = "page_" ++ Py.str n)
  /\ dispatch ADMIN_ID (CallbackQuery now (mkUpdate user (snd b)) context) w
     = (Return tt,
        mkWorld (db w)
          (out w ++ [logger_error
                       ("Invalid appeal type: " ++ repr (snd b)
                          ++ " is not a valid AppealType");
                     edit_message_text "❌ Invalid appeal type selected!"])).
Proof.
  intros Hb. split; [reflexivity|].
  assert (Hn : exists n, snd b = "page_" ++ Py.str n).
  { unfold page_keyboard in Hb. apply in_app_or in Hb.
    destruct Hb as [Hb | Hb];
      [destruct (0 <? page) | destruct ((page + 1) * limit <? total)];
      cbn [In] in Hb; try tauto;
      destruct Hb as [<- | []]; eexists; reflexivity. }
  split; [exact Hn|].
  destruct Hn as (n & Hn). cbn [dispatch].
  apply handle_appeal_invalid; cbn [callback_data]; rewrite Hn; reflexivity.
Qed.

(** C5.  In any state reached from the empty table, a selection of [unban]
    or [admin] that the engine can store (the user has a handle, the ids fit)
    appends exactly one row: its status is [pending], its id is larger than
    the id of every row that existed at any earlier moment, and from then on
    the row stays and no two rows ever share an id. *)
Theorem new_appeal_is_pending_with_fresh_id (evs : list Event) (now : Clock)
    (update : Update) (context : CallbackContext) (name : string) :
  let w := run ADMIN_ID evs (mkWorld init_db []) in
  callback_data update = "unban" \/ callback_data update = "admin" ->
  User.username (effective_user update) = Some name ->
  Sqlite.min_int64 <= User.id (effective_user update) <= Sqlite.max_int64 ->
  Z.max (seq (db w)) (Sqlite.max_rowid (rows (db w))) < Sqlite.max_int64 ->
  exists r w',
    dispatch ADMIN_ID (CallbackQuery now update context) w = (Return tt, w')
    /\ rows (db w') = (rows (db w) ++ [r])%list
    /\ Appeal.status r = PENDING
    /\ AppealTypeEnum.value (Appeal.appeal_type r) = callback_data update
    /\ (forall evs1 evs2 r0,
          evs = (evs1 ++ evs2)%list ->
          In r0 (rows (db (run ADMIN_ID evs1 (mkWorld init_db [])))) ->
          Appeal.id r0 < Appeal.id r)
    /\ (forall later,
          In r (rows (db (run ADMIN_ID later w')))
          /\ NoDup (map Appeal.id (rows (db (run ADMIN_ID later w'))))).
Proof.
  intros w Hdata Hname Hid Hlast.
  assert (Ht : exists t, payload_type (callback_data update) = Some t
                         /\ AppealTypeEnum.value t = callback_data update).
  { unfold payload_type.
    destruct Hdata as [-> | ->]; [exists UNBAN | exists ADMIN]; split; reflexivity. }
  destruct Ht as (t & Ht & Hval).
  set (last := Z.max (seq (db w)) (Sqlite.max_rowid (rows (db w)))) in *.
  exists (Appeal.mk (last + 1) (User.id (effective_user update)) name t PENDING
                    (isoformat now)).
  exists (submitted ADMIN_ID now (effective_user update) name t w).
  assert (Hinc : ids_increasing (db w))
    by (apply run_ids_increasing; constructor).
  split; [cbn [dispatch]; apply handle_appeal_valid; assumption|].
  split; [reflexivity|]. split; [reflexivity|]. split; [exact Hval|].
  split.
  - intros evs1 evs2 r0 Hevs Hin. cbn [Appeal.id].
    assert (Hin' : In r0 (rows (db w))).
    { unfold w. rewrite Hevs, run_app.
      destruct (run_rows_prefix evs2 (run ADMIN_ID evs1 (mkWorld init_db [])))
        as (extra & -> & _).
      apply in_or_app. left. exact Hin. }
    apply max_rowid_ge in Hin'. lia.
  - intros later. split.
    + destruct (run_rows_prefix later
                  (submitted ADMIN_ID now (effective_user update) name t w))
        as (extra & -> & _).
      apply in_or_app. left. cbn. apply in_or_app. right. left. reflexivity.
    + apply sorted_NoDup.
      apply (run_ids_increasing later
               (submitted ADMIN_ID now (effective_user update) name t w)).
      unfold ids_increasing. cbn [submitted db rows]. rewrite map_app.
      apply sorted_snoc; [exact Hinc|].
      apply Forall_forall. intros y Hy. apply in_map_iff in Hy.
      destruct Hy as (r0 & <- & Hin). apply max_rowid_ge in Hin.
      cbn. lia.
Qed.

End Properties.

(** * The resolve commands on concrete inputs *)

(** What the three-parameter body does when it is called directly: it answers
    "not found" for an unknown id, sets the status of a known one (whatever
    it was) and notifies the submitter. *)
Example resolve_def_unknown_id :
  resolve_appeal_def Sample.by_admin (mkContext ["999"]) APPROVED
    Sample.fresh
  = (Return tt,
     mkWorld init_db
       [cursor_execute SqlUpdate; reply_text "⚠ Appeal ID not found!" None]).
Proof. reflexivity. Qed.

Example resolve_def_known_id :
  let w' := snd (resolve_appeal_def Sample.by_admin (mkContext ["1"])
                   APPROVED (mkWorld (db Sample.one_pending) [])) in
  map Appeal.status (rows (db w')) = [APPROVED]
  /\ out w'
     = [cursor_execute SqlUpdate; cursor_execute SqlSelectUser;
        reply_text "Approved appeal #1" None;
        send_message 7
          ("📨 Your appeal has been approved!" ++ Py.LF ++ Py.LF
             ++ "Reference ID: 1")].
Proof. split; reflexivity. Qed.

Example resolve_def_overwrites_resolved :
  map Appeal.status
    (rows (db (snd (resolve_appeal_def Sample.by_admin
                      (mkContext ["1"]) REJECTED Sample.one_approved))))
  = [REJECTED].
Proof. reflexivity. Qed.

(** Two more ways out of a handler: a selection by an account without a
    handle violates NOT NULL, and a page number whose offset does not fit
    64 bits cannot be bound. *)
Example selection_without_handle_raises :
  dispatch Sample.ADMIN
    (CallbackQuery Sample.noon (mkUpdate (User.mk 8 None) "unban")
       (mkContext []))
    Sample.fresh
  = (Raise IntegrityError, mkWorld init_db [cursor_execute SqlInsert]).
Proof. reflexivity. Qed.

Example pending_page_beyond_int64_raises :
  dispatch Sample.ADMIN
    (Sample.command "pending" Sample.admin ["4611686018427387904"])
    Sample.fresh
  = (Raise OverflowError,
     mkWorld init_db [cursor_execute SqlCount; cursor_execute SqlSelectPage]).
Proof. reflexivity. Qed.

(** C2.  An administrator's [/pending abc]: [int("abc")] raises [ValueError],
    [pending] has no [try], and the exception leaves the handler; no reply is
    sent. *)
Theorem pending_non_numeric_page_escapes (w : World) :
  dispatch Sample.ADMIN (Sample.command "pending" Sample.admin ["abc"]) w
  = (Raise (ValueError "invalid literal for int() with base 10: 'abc'"), w).
Proof. apply pending_bad_page; reflexivity. Qed.

(** C6.  [/approve] and [/reject] from a user who is not the administrator:
    the call of the decorated function with three arguments raises
    [TypeError] before the identity check runs, so no "Unauthorized access!"
    reply is sent (nor anything else). *)
Theorem resolve_by_other_user_gets_no_reply (w : World)
    (arguments : list string) :
  dispatch Sample.ADMIN (Sample.command "approve" Sample.user7 arguments) w
  = (Raise (TypeError "takes 2 positional arguments but 3 were given"), w)
  /\ dispatch Sample.ADMIN (Sample.command "reject" Sample.user7 arguments) w
     = (Raise (TypeError "takes 2 positional arguments but 3 were given"), w).
Proof. split; reflexivity. Qed.

(** C8.  The administrator's [/approve 999] on a table without row 999: the
    handler raises [TypeError] and sends no "Appeal ID not found!" reply. *)
Theorem approve_unknown_id_gets_no_reply :
  dispatch Sample.ADMIN (Sample.command "approve" Sample.admin ["999"])
    Sample.fresh
  = (Raise (TypeError "takes 2 positional arguments but 3 were given"),
     Sample.fresh).
Proof. reflexivity. Qed.

(** C9.  The administrator's [/approve 1] while row 1 is pending: the handler
    raises [TypeError]; the row stays pending, no confirmation and no
    notification are sent. *)
Theorem approve_known_id_changes_nothing :
  map (fun r => (Appeal.id r, Appeal.user_id r, Appeal.status r))
    (rows (db Sample.one_pending)) = [(1, 7, PENDING)]
  /\ dispatch Sample.ADMIN (Sample.command "approve" Sample.admin ["1"])
       Sample.one_pending
     = (Raise (TypeError "takes 2 positional arguments but 3 were given"),
        Sample.one_pending).
Proof. split; reflexivity. Qed.

(** C4, as stated, fails on an empty page: with one pending appeal, page 1 is
    empty and the reply carries no "previous" control although [1 > 0]. *)
Lemma previous_control_missing_on_empty_page :
  ~ (attached "⬅ Previous"
       (out (snd (dispatch Sample.ADMIN
                    (Sample.command "pending" Sample.admin ["1"])
                    Sample.one_pending))) = true
     <-> 0 < 1).
Proof.
  intros [_ H]. specialize (H eq_refl). vm_compute in H. discriminate H.
Qed.

(** * The theorems at sample inputs *)

(** C10 along a selection, an [/approve 1] and a [/pending]. *)
Lemma fixed_columns_never_change_witness :
  exists r',
    nth_error
      (rows (db (run Sample.ADMIN
                   [Sample.select "admin";
                    Sample.command "approve" Sample.admin ["1"];
                    Sample.command "pending" Sample.admin []]
                   Sample.one_pending))) 0
    = Some r'
    /\ Appeal.id r' = 1
    /\ Appeal.user_id r' = 7
    /\ Appeal.username r' = "seven"
    /\ Appeal.appeal_type r' = UNBAN
    /\ Appeal.timestamp r' = "2024-01-01T12:00:00".
Proof.
  apply (fixed_columns_never_change Sample.ADMIN
           [Sample.select "admin";
            Sample.command "approve" Sample.admin ["1"];
            Sample.command "pending" Sample.admin []]
           Sample.one_pending 0%nat
           (Appeal.mk 1 7 "seven" UNBAN PENDING "2024-01-01T12:00:00")).
  reflexivity.
Defined.

(** C7 at the payload [fedban]. *)
Lemma invalid_selection_inserts_nothing_witness :
  dispatch Sample.ADMIN (Sample.select "fedban") Sample.one_pending
  = (Return tt,
     mkWorld (db Sample.one_pending)
       (out Sample.one_pending
          ++ [logger_error
                "Invalid appeal type: 'fedban' is not a valid AppealType";
              edit_message_text "❌ Invalid appeal type selected!"])).
Proof.
  apply (invalid_selection_inserts_nothing Sample.ADMIN Sample.noon
           (mkUpdate Sample.user7 "fedban") (mkContext []) Sample.one_pending).
  - simpl. discriminate.
  - simpl. discriminate.
Defined.

(** C3 at the "next" control of page 1 of 20 appeals. *)
Lemma pagination_tap_is_invalid_selection_witness :
  In ("Next ➡", "page_2") (page_keyboard 1 5 20)
  /\ dispatch Sample.ADMIN (Sample.select "page_2") Sample.seven_pending
     = (Return tt,
        mkWorld (db Sample.seven_pending)
          (out Sample.seven_pending
             ++ [logger_error
                   "Invalid appeal type: 'page_2' is not a valid AppealType";
                 edit_message_text "❌ Invalid appeal type selected!"])).
Proof.
  assert (Hin : In ("Next ➡", "page_2") (page_keyboard 1 5 20))
    by (right; left; reflexivity).
  split; [exact Hin|].
  apply (pagination_tap_is_invalid_selection Sample.ADMIN Sample.noon
           Sample.user7 (mkContext []) Sample.seven_pending 1 5 20
           ("Next ➡", "page_2") Hin).
Defined.

(** C4 (as amended) at page 1 of seven pending appeals: two rows, with a
    "previous" control. *)
Lemma pending_page_listing_witness :
  Z.of_nat (length (Sqlite.limit_offset 5 (1 * 5)
                      (pending_rows (db Sample.seven_pending)))) = 2
  /\ attached "⬅ Previous"
       (out (snd (dispatch Sample.ADMIN
                    (Sample.command "pending" Sample.admin ["1"])
                    Sample.seven_pending))) = true.
Proof.
  destruct (pending_page_listing Sample.ADMIN Sample.by_admin
              (mkContext ["1"]) Sample.seven_pending 1) as [Hlen _].
  - reflexivity.
  - right. exists "1", []. split; reflexivity.
  - lia.
  - vm_compute. discriminate.
  - split; [exact Hlen | reflexivity].
Defined.

(** C5 at a second selection by user 7. *)
Lemma new_appeal_is_pending_with_fresh_id_witness :
  exists r w',
    dispatch Sample.ADMIN (Sample.select "admin") Sample.one_pending
    = (Return tt, w')
    /\ rows (db w') = (rows (db Sample.one_pending) ++ [r])%list
    /\ Appeal.status r = PENDING.
Proof.
  destruct (new_appeal_is_pending_with_fresh_id Sample.ADMIN
              [Sample.select "unban"] Sample.noon
              (mkUpdate Sample.user7 "admin") (mkContext []) "seven")
    as (r & w' & Hrun & Hrows & Hst & _).
  - right. reflexivity.
  - reflexivity.
  - vm_compute. split; discriminate.
  - vm_compute. reflexivity.
  - exists r, w'. split; [exact Hrun | split; [exact Hrows | exact Hst]].
Defined.

(** * Further properties of the handlers *)

Section Handlers.

Variable ADMIN_ID : Z.

(** *** The administrator gate *)

(** Whatever function [admin_only] wraps, a call by anyone but the
    administrator sends the one "Unauthorized access!" reply and nothing
    else: the wrapped function is not run and the table is not touched. *)
Theorem admin_only_rejects_others (func : callable) (update : Update)
    (context : CallbackContext) (w : World) :
  User.id (effective_user update) <> ADMIN_ID ->
  call2 (admin_only ADMIN_ID func) update context w
  = (Return tt,
     mkWorld (db w) (out w ++ [reply_text "⛔ Unauthorized access!" None])).
Proof.
  intros Hother. cbn. apply Z.eqb_neq in Hother. rewrite Hother. reflexivity.
Qed.

(** For the administrator the wrapper is transparent: it makes the same
    two-argument call of the wrapped function. *)
Lemma admin_only_lets_admin_through (func : callable) (update : Update)
    (context : CallbackContext) (w : World) :
  User.id (effective_user update) = ADMIN_ID ->
  call2 (admin_only ADMIN_ID func) update context w
  = call2 func update context w.
Proof.
  intros Hadm. cbn. rewrite Hadm, Z.eqb_refl. reflexivity.
Qed.

(** *** Commands and the table *)

(** [/approve] and [/reject] raise [TypeError] for every sender, every
    argument list and every table, before anything is sent or stored. *)
Theorem resolve_commands_always_raise (update : Update)
    (context : CallbackContext) (w : World) :
  dispatch ADMIN_ID (Command "approve" update context) w
  = (Raise (TypeError "takes 2 positional arguments but 3 were given"), w)
  /\ dispatch ADMIN_ID (Command "reject" update context) w
     = (Raise (TypeError "takes 2 positional arguments but 3 were given"), w).
Proof. split; reflexivity. Qed.

Lemma command_keeps_table (name : string) (update : Update)
    (context : CallbackContext) (w : World) :
  db (process_update ADMIN_ID (Command name update context) w) = db w.
Proof.
  unfold process_update, dispatch, command_handlers. cbn [lookup_handler].
  repeat match goal with
         | |- context [String.eqb ?a (Py.str_lower name)] =>
             destruct (String.eqb a (Py.str_lower name))
         end; try reflexivity.
  cbn -[pending_def].
  destruct (negb (User.id (effective_user update) =? ADMIN_ID));
    [reflexivity | apply pending_def_db].
Qed.

(** No sequence of commands, from whomever and however they end, changes the
    table: only selections from the inline keyboard write to it. *)
Theorem commands_never_change_table (evs : list Event) (w : World) :
  forallb is_command evs = true ->
  db (run ADMIN_ID evs w) = db w.
Proof.
  revert w. induction evs as [|ev evs IH]; intros w Hall; cbn [run];
    [reflexivity|].
  cbn [forallb] in Hall. apply andb_true_iff in Hall. destruct Hall as [Hev Hall].
  rewrite IH by exact Hall.
  destruct ev as [name update context | now update context];
    [apply command_keeps_table | discriminate Hev].
Qed.

(** A command whose lower-cased name is none of the five that [main]
    registers a handler for does nothing at all; in any other spelling of a
    registered name ([/START], [/Pending]) the command runs its handler. *)
Theorem unknown_command_ignored (name : string) (update : Update)
    (context : CallbackContext) (w : World) :
  ~ In (Py.str_lower name) registered_commands ->
  dispatch ADMIN_ID (Command name update context) w = (Return tt, w).
Proof.
  intros Hnot. unfold dispatch, command_handlers. cbn [lookup_handler].
  repeat match goal with
         | |- context [String.eqb ?a (Py.str_lower name)] =>
             destruct (String.eqb_spec a (Py.str_lower name)) as [Heq | _];
             [exfalso; apply Hnot; rewrite <- Heq; cbn; tauto|]
         end.
  reflexivity.
Qed.

Lemma command_in_any_case (name : string) (update : Update)
    (context : CallbackContext) :
  dispatch ADMIN_ID (Command name update context)
  = dispatch ADMIN_ID (Command (Py.str_lower name) update context).
Proof.
  assert (Hidem : forall s, Py.str_lower (Py.str_lower s) = Py.str_lower s).
  { unfold Py.str_lower. induction s as [|c s IH]; [reflexivity|].
    cbn [Py.map_string]. rewrite IH. f_equal.
    unfold Py.lower.
    destruct ((65 <=? N_of_ascii c)%N && (N_of_ascii c <=? 90)%N) eqn:Hup;
      [|rewrite Hup; reflexivity].
    apply andb_true_iff in Hup. destruct Hup as [Hlo Hhi].
    apply N.leb_le in Hlo, Hhi.
    rewrite N_ascii_embedding by lia.
    replace ((65 <=? N_of_ascii c + 32)%N && (N_of_ascii c + 32 <=? 90)%N)
      with false; [reflexivity|].
    symmetry. apply andb_false_iff. right. apply N.leb_gt. lia. }
  unfold dispatch. rewrite Hidem. reflexivity.
Qed.

(** *** Selections from the inline keyboard *)

Lemma parse_valid_payload (data : string) (w : World) :
  data = "unban" \/ data = "admin" ->
  exists t,
    AppealType_of_value data w = (Return t, w)
    /\ AppealTypeEnum.value t = data
    /\ payload_type data = Some t.
Proof.
  intros [-> | ->]; [exists UNBAN | exists ADMIN]; repeat split.
Qed.

(** The two controls that [/appeal] shows carry exactly the payloads that
    the selection handler accepts: each one parses to an appeal type, and
    each appeal type is on some control. *)
Theorem appeal_keyboard_offers_the_valid_payloads (update : Update)
    (context : CallbackContext) (w : World) :
  exists keyboard,
    dispatch ADMIN_ID (Command "appeal" update context) w
    = (Return tt,
       mkWorld (db w)
         (out w ++ [reply_text "Select appeal type:" (Some keyboard)]))
    /\ (forall b, In b (concat keyboard) ->
          exists t, AppealType_of_value (snd b) w = (Return t, w))
    /\ (forall t, exists b,
          In b (concat keyboard)
          /\ AppealType_of_value (snd b) w = (Return t, w)).
Proof.
  eexists. split; [reflexivity|]. split.
  - intros b Hb. cbn in Hb.
    destruct Hb as [<- | [<- | []]]; [exists UNBAN | exists ADMIN]; reflexivity.
  - intros [|];
      [exists ("🔓 Fed Unban Appeal", "unban")
      | exists ("👑 Fed Admin Request", "admin")];
      (split; [cbn; tauto | reflexivity]).
Qed.

(** A valid selection by an account without a handle stores nothing: the
    INSERT fails on the NOT NULL column, the exception is not a [ValueError]
    and leaves the handler; the message is not edited and the administrator
    is not told. *)
Theorem selection_without_handle_is_lost (now : Clock) (update : Update)
    (context : CallbackContext) (w : World) :
  callback_data update = "unban" \/ callback_data update = "admin" ->
  User.username (effective_user update) = None ->
  Sqlite.min_int64 <= User.id (effective_user update) <= Sqlite.max_int64 ->
  Z.max (seq (db w)) (Sqlite.max_rowid (rows (db w))) < Sqlite.max_int64 ->
  dispatch ADMIN_ID (CallbackQuery now update context) w
  = (Raise IntegrityError,
     mkWorld (db w) (out w ++ [cursor_execute SqlInsert])).
Proof.
  intros Hdata Hname Hid Hlast.
  destruct (parse_valid_payload _ w Hdata) as (t & Hparse & _ & _).
  cbn [dispatch].
  unfold handle_appeal, Sqlite.insert_appeal, Sqlite.bind_int.
  unfold_m. rewrite Hparse. cbn.
  replace ((Sqlite.min_int64 <=? User.id (effective_user update))
           && (User.id (effective_user update) <=? Sqlite.max_int64)) with true
    by (symmetry; apply andb_true_iff; split; apply Z.leb_le; lia).
  cbn.
  replace (Sqlite.max_int64 <=?
           Z.max (seq (db w)) (Sqlite.max_rowid (rows (db w)))) with false
    by (symmetry; apply Z.leb_gt; lia).
  rewrite Hname. reflexivity.
Qed.

(** A selection that is stored makes three outward calls, in this order: the
    INSERT, the edit of the keyboard message and one message to the
    administrator; the new row carries the sender's id and handle, the
    selected type and the clock reading. *)
Theorem selection_records_sender_and_notifies_admin (now : Clock)
    (update : Update) (context : CallbackContext) (w : World) (name : string) :
  callback_data update = "unban" \/ callback_data update = "admin" ->
  User.username (effective_user update) = Some name ->
  Sqlite.min_int64 <= User.id (effective_user update) <= Sqlite.max_int64 ->
  Z.max (seq (db w)) (Sqlite.max_rowid (rows (db w))) < Sqlite.max_int64 ->
  exists r text,
    dispatch ADMIN_ID (CallbackQuery now update context) w
    = (Return tt,
       mkWorld (mkStore (rows (db w) ++ [r]) (Appeal.id r))
         (out w ++ [cursor_execute SqlInsert;
                    edit_message_text
                      ("✅ " ++ Py.capitalize (callback_data update)
                         ++ " appeal submitted!");
                    send_message ADMIN_ID text]))
    /\ Appeal.user_id r = User.id (effective_user update)
    /\ Appeal.username r = name
    /\ AppealTypeEnum.value (Appeal.appeal_type r) = callback_data update
    /\ Appeal.timestamp r = isoformat now
    /\ text = "🚨 New Appeal" ++ Py.LF
                ++ "User: @" ++ name ++ Py.LF
                ++ "Type: " ++ callback_data update ++ Py.LF
                ++ "Time: " ++ strftime now ++ Py.LF ++ Py.LF
                ++ "Use /pending to view all appeals".
Proof.
  intros Hdata Hname Hid Hlast.
  destruct (parse_valid_payload _ w Hdata) as (t & _ & Hval & Ht).
  cbn [dispatch].
  rewrite (handle_appeal_valid ADMIN_ID now update context w t name)
    by assumption.
  unfold submitted. rewrite <- Hval.
  exists (Appeal.mk
            (Z.max (seq (db w)) (Sqlite.max_rowid (rows (db w))) + 1)
            (User.id (effective_user update)) name t PENDING (isoformat now)).
  eexists. split; [reflexivity|]. repeat split.
Qed.

Lemma max_rowid_snoc (l : list Appeal.t) (r : Appeal.t) :
  Sqlite.max_rowid (l ++ [r]) = Z.max (Sqlite.max_rowid l) (Appeal.id r).
Proof.
  unfold Sqlite.max_rowid.
  induction l as [|a l IH]; cbn [app fold_right]; [lia | rewrite IH; lia].
Qed.

(** Nothing guards against a repeated tap: the same selection by the same
    user handled twice stores two rows with the same user, handle, type and
    status; their ids differ by one and each carries the clock reading of
    its own handling. *)
Theorem repeated_selection_stores_two_rows (now1 now2 : Clock)
    (update : Update) (context : CallbackContext) (w : World) (name : string) :
  callback_data update = "unban" \/ callback_data update = "admin" ->
  User.username (effective_user update) = Some name ->
  Sqlite.min_int64 <= User.id (effective_user update) <= Sqlite.max_int64 ->
  Z.max (seq (db w)) (Sqlite.max_rowid (rows (db w))) + 1 < Sqlite.max_int64 ->
  exists r1 r2,
    rows (db (run ADMIN_ID [CallbackQuery now1 update context;
                            CallbackQuery now2 update context] w))
    = (rows (db w) ++ [r1; r2])%list
    /\ Appeal.id r2 = Appeal.id r1 + 1
    /\ Appeal.timestamp r1 = isoformat now1
    /\ r2 = Appeal.mk (Appeal.id r1 + 1) (Appeal.user_id r1)
              (Appeal.username r1) (Appeal.appeal_type r1) (Appeal.status r1)
              (isoformat now2).
Proof.
  intros Hdata Hname Hid Hlast.
  destruct (parse_valid_payload _ w Hdata) as (t & _ & _ & Ht).
  set (last := Z.max (seq (db w)) (Sqlite.max_rowid (rows (db w)))) in *.
  set (r1 := Appeal.mk (last + 1) (User.id (effective_user update)) name t
               PENDING (isoformat now1)).
  set (w1 := submitted ADMIN_ID now1 (effective_user update) name t w).
  assert (H1 : process_update ADMIN_ID (CallbackQuery now1 update context) w
               = w1).
  { unfold process_update. cbn [dispatch].
    rewrite (handle_appeal_valid ADMIN_ID now1 update context w t name)
      by (try assumption; fold last; lia).
    reflexivity. }
  assert (Hmax : Z.max (seq (db w1)) (Sqlite.max_rowid (rows (db w1)))
                 = last + 1).
  { unfold w1, submitted. cbn [db rows seq]. fold last.
    fold r1. rewrite max_rowid_snoc. cbn [Appeal.id r1]. lia. }
  assert (H2 : process_update ADMIN_ID (CallbackQuery now2 update context) w1
               = submitted ADMIN_ID now2 (effective_user update) name t w1).
  { unfold process_update. cbn [dispatch].
    rewrite (handle_appeal_valid ADMIN_ID now2 update context w1 t name)
      by (try assumption; rewrite Hmax; lia).
    reflexivity. }
  exists r1, (Appeal.mk (last + 1 + 1) (User.id (effective_user update)) name t
                        PENDING (isoformat now2)).
  cbn [run]. rewrite H1, H2.
  unfold submitted at 1. cbn [db rows]. rewrite Hmax.
  unfold w1, submitted. cbn [db rows]. fold last. rewrite <- app_assoc.
  split; [reflexivity | split; [reflexivity | split; reflexivity]].
Qed.

(** *** Ids handed out from an empty table *)

Lemma consecutive_max_rowid (s : Store) :
  consecutive_ids s -> Sqlite.max_rowid (rows s) = Z.of_nat (length (rows s)).
Proof.
  unfold consecutive_ids. intros [Hids _]. revert Hids.
  generalize (rows s). intros l.
  induction l as [|r l IH] using rev_ind; intros Hids; [reflexivity|].
  rewrite max_rowid_snoc. rewrite length_app, Nat.add_comm in *.
  cbn [length Nat.add] in *.
  rewrite map_app, seq_S, map_app in Hids. cbn [map] in Hids.
  apply app_inj_tail in Hids. destruct Hids as [Hl Hr].
  rewrite (IH Hl), Hr. lia.
Qed.

Lemma process_update_consecutive (ev : Event) (w : World) :
  consecutive_ids (db w) -> consecutive_ids (db (process_update ADMIN_ID ev w)).
Proof.
  intros Hc.
  destruct (process_update_db ADMIN_ID ev w)
    as [Hsame | (r & Hrows & _ & Hid & Hseq)].
  - rewrite Hsame. exact Hc.
  - pose proof (consecutive_max_rowid _ Hc) as Hmax.
    destruct Hc as [Hids Hs]. unfold consecutive_ids.
    rewrite Hseq, Hrows, length_app, Nat.add_comm. cbn [length Nat.add].
    rewrite map_app, seq_S, map_app, <- Hids. cbn [map].
    rewrite Hid, Hs, Hmax. split; [f_equal; f_equal|]; lia.
Qed.

(** Started on an empty table, the bot numbers the appeals 1, 2, 3, ... in
    the order of their rows, without gaps, whatever updates it is sent. *)
Theorem ids_count_up_from_one (evs : list Event) (o : list effect) :
  let s := db (run ADMIN_ID evs (mkWorld init_db o)) in
  map Appeal.id (rows s) = map Z.of_nat (List.seq 1 (length (rows s)))
  /\ seq s = Z.of_nat (length (rows s)).
Proof.
  assert (Hgen : forall w, consecutive_ids (db w) ->
                           consecutive_ids (db (run ADMIN_ID evs w))).
  { induction evs as [|ev evs IH]; intros w Hc; cbn [run]; [exact Hc|].
    apply IH, process_update_consecutive, Hc. }
  apply Hgen. split; reflexivity.
Qed.

(** *** Pages of the pending list *)

(** For the administrator and a page argument in ASCII, [/pending] ends
    with a reply exactly when the argument is absent, or is an integer
    literal whose offset (five times the page) fits a 64-bit integer; in
    every other case an exception leaves the handler. *)
Theorem pending_replies_iff (update : Update) (context : CallbackContext)
    (w : World) :
  User.id (effective_user update) = ADMIN_ID ->
  (forall a rest, args context = a :: rest -> Py.isascii a = true) ->
  (exists w', dispatch ADMIN_ID (Command "pending" update context) w
              = (Return tt, w'))
  <-> (args context = []
       \/ exists a rest k,
            args context = a :: rest /\ Py.int a = Some k
            /\ Sqlite.min_int64 <= k * 5 <= Sqlite.max_int64).
Proof.
  intros Hadm _. rewrite dispatch_pending. split.
  - intros (w' & Hrun). rewrite pending_as_admin in Hrun by exact Hadm.
    destruct (args context) as [|a rest] eqn:Hargs; [left; reflexivity|].
    right. exists a, rest.
    unfold pending_def, py_int, Sqlite.count_pending, Sqlite.select_pending,
      Sqlite.bind_int in Hrun.
    unfold_m. rewrite Hargs in Hrun.
    destruct (Py.int a) as [k|]; cbn in Hrun; [|discriminate Hrun].
    exists k.
    destruct ((Sqlite.min_int64 <=? k * 5) && (k * 5 <=? Sqlite.max_int64))
      eqn:Hb; cbn in Hrun; [|discriminate Hrun].
    apply andb_true_iff in Hb. destruct Hb as [Hlo Hhi].
    apply Z.leb_le in Hlo, Hhi. repeat split; assumption.
  - intros Hok. rewrite pending_as_admin by exact Hadm.
    destruct Hok as [Hnil | (a & rest & k & Hargs & Hint & Hrange)].
    + rewrite (pending_def_page update context w 0)
        by (try (left; split; [exact Hnil | reflexivity]);
            unfold Sqlite.min_int64, Sqlite.max_int64; lia).
      eexists. reflexivity.
    + rewrite (pending_def_page update context w k)
        by (try (right; exists a, rest; split; assumption); exact Hrange).
      eexists. reflexivity.
Qed.

Lemma page_of_nonpositive (k : Z) (l : list Appeal.t) :
  k <= 0 -> page_of k l = firstn 5 l.
Proof.
  intros Hk. unfold page_of, Sqlite.limit_offset. cbn [Z.ltb Z.compare].
  replace (Z.to_nat (k * 5)) with 0%nat by lia. reflexivity.
Qed.

(** A negative page number is not refused: the engine reads the negative
    offset as 0, so the administrator is shown the first five pending
    appeals under the heading "Page k+1", never with a "previous" control. *)
Theorem pending_negative_page_shows_first_rows (update : Update)
    (a : string) (rest : list string) (w : World) (k : Z) :
  User.id (effective_user update) = ADMIN_ID ->
  Py.int a = Some k ->
  k < 0 ->
  Sqlite.min_int64 <= k * 5 ->
  let total := Z.of_nat (length (pending_rows (db w))) in
  dispatch ADMIN_ID (Command "pending" update (mkContext (a :: rest))) w
  = (Return tt,
     mkWorld (db w)
       (out w ++ [cursor_execute SqlCount; cursor_execute SqlSelectPage;
                  pending_reply k 5 total (firstn 5 (pending_rows (db w)))]))
  /\ (forall b, In b (page_keyboard k 5 total) -> fst b = "Next ➡").
Proof.
  intros Hadm Hint Hk Hlo total. split.
  - rewrite dispatch_pending, pending_as_admin by exact Hadm.
    rewrite (pending_def_page update (mkContext (a :: rest)) w k)
      by (try (right; exists a, rest; split; [reflexivity | exact Hint]);
          unfold Sqlite.max_int64; lia).
    fold (page_of k (pending_rows (db w))).
    rewrite page_of_nonpositive by lia. reflexivity.
  - intros b Hb. unfold page_keyboard in Hb.
    replace (0 <? k) with false in Hb by (symmetry; apply Z.ltb_ge; lia).
    cbn [app] in Hb.
    destruct ((k + 1) * 5 <? total); cbn [In] in Hb;
      [destruct Hb as [<- | []]; reflexivity | contradiction].
Qed.

Lemma firstn_then_firstn_skipn (a b : nat) (l : list Appeal.t) :
  (firstn a l ++ firstn b (skipn a l))%list = firstn (a + b) l.
Proof.
  revert l. induction a as [|a IH]; intros l; [reflexivity|].
  destruct l as [|x l]; cbn [firstn skipn Nat.add app].
  - destruct b; reflexivity.
  - f_equal. apply IH.
Qed.

Lemma pages_up_to (n : nat) (l : list Appeal.t) :
  concat (map (fun k => page_of (Z.of_nat k) l) (List.seq 0 n))
  = firstn (5 * n) l.
Proof.
  induction n as [|n IH]; [reflexivity|].
  rewrite seq_S, map_app, concat_app, IH. cbn [map concat Nat.add].
  rewrite app_nil_r.
  unfold page_of, Sqlite.limit_offset. cbn [Z.ltb Z.compare].
  replace (Z.to_nat (Z.of_nat n * 5)) with (5 * n)%nat by lia.
  replace (Z.to_nat 5) with 5%nat by reflexivity.
  rewrite firstn_then_firstn_skipn. f_equal. lia.
Qed.

(** Read one after the other, pages 0, 1, ..., n-1 of an unchanged table
    show every pending appeal exactly once and in table order, as soon as
    [5 * n] reaches the number of pending appeals. *)
Theorem pages_cover_pending_once (s : Store) (n : nat) :
  (length (pending_rows s) <= 5 * n)%nat ->
  concat (map (fun k => Sqlite.limit_offset 5 (Z.of_nat k * 5) (pending_rows s))
              (List.seq 0 n))
  = pending_rows s.
Proof.
  intros Hn.
  change (concat (map (fun k => page_of (Z.of_nat k) (pending_rows s))
                      (List.seq 0 n)) = pending_rows s).
  rewrite pages_up_to. apply firstn_all2. exact Hn.
Qed.

Lemma pending_reply_listing (page limit total : Z) (appeals : list Appeal.t) :
  appeals <> [] ->
  pending_reply page limit total appeals
  = reply_text
      (Py.join Py.LF
         (("📋 Pending Appeals (Page " ++ Py.str (page + 1) ++ "):" ++ Py.LF)
            :: map render_appeal appeals))
      (markup_if_any (page_keyboard page limit total)).
Proof.
  destruct appeals; [congruence | reflexivity].
Qed.

Lemma last_page_after_append (l : list Appeal.t) (r : Appeal.t) :
  page_of (Z.of_nat (length l) / 5) (l ++ [r])
  = (skipn (5 * (length l / 5)) l ++ [r])%list.
Proof.
  unfold page_of, Sqlite.limit_offset. cbn [Z.ltb Z.compare].
  replace (Z.to_nat (Z.of_nat (length l) / 5 * 5)) with (5 * (length l / 5))%nat.
  2:{ assert (Hq : Z.of_nat (length l) / 5 = Z.of_nat (length l / 5))
        by (rewrite Nat2Z.inj_div; reflexivity).
      rewrite Hq. lia. }
  pose proof (Nat.div_mod_eq (length l) 5) as Hdm.
  pose proof (Nat.mod_upper_bound (length l) 5 ltac:(lia)) as Hmod.
  rewrite skipn_app.
  replace (5 * (length l / 5) - length l)%nat with 0%nat by lia.
  cbn [skipn]. apply firstn_all2.
  rewrite length_app, length_skipn. cbn [length]. lia.
Qed.

(** Submitting and then listing: once a selection is stored as row [r], the
    administrator's [/pending] for page [total / 5], where [total] pending
    appeals were there before, answers with a listing whose entries are the
    pending appeals that page had so far, followed by [r]. *)
Theorem new_appeal_shows_on_last_page (now : Clock) (update : Update)
    (context : CallbackContext) (w : World) (name : string)
    (by_admin : Update) (a : string) (rest : list string) :
  let total := Z.of_nat (length (pending_rows (db w))) in
  callback_data update = "unban" \/ callback_data update = "admin" ->
  User.username (effective_user update) = Some name ->
  Sqlite.min_int64 <= User.id (effective_user update) <= Sqlite.max_int64 ->
  Z.max (seq (db w)) (Sqlite.max_rowid (rows (db w))) < Sqlite.max_int64 ->
  User.id (effective_user by_admin) = ADMIN_ID ->
  Py.int a = Some (total / 5) ->
  total <= Sqlite.max_int64 ->
  exists r w1 markup,
    dispatch ADMIN_ID (CallbackQuery now update context) w = (Return tt, w1)
    /\ rows (db w1) = (rows (db w) ++ [r])%list
    /\ Appeal.id r
       = Z.max (seq (db w)) (Sqlite.max_rowid (rows (db w))) + 1
    /\ Appeal.user_id r = User.id (effective_user update)
    /\ Appeal.username r = name
    /\ AppealTypeEnum.value (Appeal.appeal_type r) = callback_data update
    /\ Appeal.status r = PENDING
    /\ Appeal.timestamp r = isoformat now
    /\ dispatch ADMIN_ID (Command "pending" by_admin (mkContext (a :: rest))) w1
       = (Return tt,
          mkWorld (db w1)
            (out w1
               ++ [cursor_execute SqlCount; cursor_execute SqlSelectPage;
                   reply_text
                     (Py.join Py.LF
                        (("📋 Pending Appeals (Page "
                            ++ Py.str (total / 5 + 1) ++ "):" ++ Py.LF)
                           :: map render_appeal
                                (skipn (Z.to_nat (total / 5 * 5))
                                       (pending_rows (db w)) ++ [r])))
                     markup])).
Proof.
  intros total Hdata Hname Hid Hlast Hadm Hint Htotal.
  destruct (parse_valid_payload _ w Hdata) as (t & _ & Hval & Ht).
  set (r := Appeal.mk (Z.max (seq (db w)) (Sqlite.max_rowid (rows (db w))) + 1)
              (User.id (effective_user update)) name t PENDING (isoformat now)).
  set (w1 := submitted ADMIN_ID now (effective_user update) name t w).
  assert (Hpend : pending_rows (db w1) = (pending_rows (db w) ++ [r])%list).
  { unfold pending_rows, w1, submitted. cbn [db rows].
    rewrite filter_app. reflexivity. }
  assert (Hdiv : 0 <= total / 5 /\ total / 5 * 5 <= total).
  { pose proof (Z.div_mod total 5 ltac:(lia)).
    pose proof (Z.mod_pos_bound total 5 ltac:(lia)).
    assert (0 <= total) by (unfold total; lia).
    split; [apply Z.div_pos; lia | lia]. }
  assert (Hoff : Z.to_nat (total / 5 * 5)
                 = (5 * (length (pending_rows (db w)) / 5))%nat).
  { unfold total.
    assert (Hq : Z.of_nat (length (pending_rows (db w))) / 5
                 = Z.of_nat (length (pending_rows (db w)) / 5))
      by (rewrite Nat2Z.inj_div; reflexivity).
    rewrite Hq. lia. }
  exists r, w1. eexists.
  split; [cbn [dispatch]; apply handle_appeal_valid; assumption|].
  do 7 (split; [first [reflexivity | exact Hval]|]).
  rewrite dispatch_pending, pending_as_admin by exact Hadm.
  rewrite (pending_def_page by_admin (mkContext (a :: rest)) w1 (total / 5))
    by (try (right; exists a, rest; split; [reflexivity | exact Hint]);
        unfold Sqlite.min_int64 in *; lia).
  rewrite Hpend.
  fold (page_of (total / 5) (pending_rows (db w) ++ [r])).
  rewrite Hoff. unfold total. rewrite last_page_after_append.
  rewrite pending_reply_listing by (intros H; apply app_eq_nil in H;
                                    destruct H; discriminate).
  reflexivity.
Qed.

(** *** The body of [resolve_appeal], called with its three arguments *)

Lemma no_match_update (status : AppealStatus) (a : string) (s : Store) :
  (forall r, In r (rows s) -> Sqlite.id_matches a r = false) ->
  with_status status a s = s
  /\ filter (Sqlite.id_matches a) (rows s) = [].
Proof.
  intros Hno. unfold with_status. destruct s as [rs sq]. cbn [rows seq] in *.
  split.
  - f_equal. induction rs as [|r rs IH]; [reflexivity|].
    cbn [map]. rewrite (Hno r) by (left; reflexivity).
    f_equal. apply IH. intros r0 Hin. apply Hno. right. exact Hin.
  - induction rs as [|r rs IH]; [reflexivity|].
    cbn [filter]. rewrite (Hno r) by (left; reflexivity).
    apply IH. intros r0 Hin. apply Hno. right. exact Hin.
Qed.

Lemma find_some_filter (a : string) (rs : list Appeal.t) (r : Appeal.t) :
  find (Sqlite.id_matches a) rs = Some r ->
  (Z.of_nat (length (filter (Sqlite.id_matches a) rs)) =? 0) = false.
Proof.
  intros Hfind. apply Z.eqb_neq.
  induction rs as [|x rs IH]; [discriminate Hfind|].
  cbn [find filter] in *. destruct (Sqlite.id_matches a x); cbn [length]; [lia|].
  apply IH, Hfind.
Qed.

Lemma find_after_update (status : AppealStatus) (a : string)
    (rs : list Appeal.t) :
  find (Sqlite.id_matches a)
    (map (fun r => if Sqlite.id_matches a r
                   then Appeal.set_status status r else r) rs)
  = option_map (Appeal.set_status status) (find (Sqlite.id_matches a) rs).
Proof.
  induction rs as [|x rs IH]; [reflexivity|].
  cbn [map find]. destruct (Sqlite.id_matches a x) eqn:Hx.
  - change (Sqlite.id_matches a (Appeal.set_status status x))
      with (Sqlite.id_matches a x). rewrite Hx. reflexivity.
  - rewrite Hx. exact IH.
Qed.

(** Without an argument, or with one in ASCII that is not all digits, the
    body sends the usage line and logs the reason; no statement reaches the
    table. *)
Theorem resolve_body_usage (update : Update) (context : CallbackContext)
    (status : AppealStatus) (w : World) :
  args context = []
  \/ (exists a rest,
        args context = a :: rest
        /\ Py.isascii a = true /\ Py.isdigit a = false) ->
  exists reason,
    resolve_appeal_def update context status w
    = (Return tt,
       mkWorld (db w)
         (out w ++ [logger_error ("Error in resolve_appeal: " ++ reason);
                    reply_text
                      ("Usage: /" ++ AppealStatusEnum.value status
                         ++ " <appeal_id>") None])).
Proof.
  intros [Hnil | (a & rest & Hargs & _ & Hdig)];
    unfold resolve_appeal_def; unfold_m.
  - rewrite Hnil. cbn. eexists. rewrite <- app_assoc. reflexivity.
  - rewrite Hargs, Hdig. cbn. eexists. rewrite <- app_assoc. reflexivity.
Qed.

(** With a digit string that is the id of no row, the body issues the
    UPDATE, answers "Appeal ID not found!" and stops: the table is as before
    and nobody else is written to. *)
Theorem resolve_body_unknown_id (update : Update) (a : string)
    (rest : list string) (status : AppealStatus) (w : World) :
  Py.isdigit a = true ->
  (forall r, In r (rows (db w)) -> Appeal.id r <> Py.decimal 0 a) ->
  resolve_appeal_def update (mkContext (a :: rest)) status w
  = (Return tt,
     mkWorld (db w)
       (out w ++ [cursor_execute SqlUpdate;
                  reply_text "⚠ Appeal ID not found!" None])).
Proof.
  intros Hdig Hno.
  assert (Hmatch : forall r, In r (rows (db w)) -> Sqlite.id_matches a r = false).
  { intros r Hin. unfold Sqlite.id_matches, Sqlite.text_as_integer.
    rewrite Hdig. apply Z.eqb_neq, Hno, Hin. }
  destruct (no_match_update status a (db w) Hmatch) as [Hsame Hnone].
  unfold resolve_appeal_def, Sqlite.update_status. unfold_m.
  cbn [args]. rewrite Hdig. cbn. fold (with_status status a (db w)).
  rewrite Hnone, Hsame. cbn. rewrite <- app_assoc. reflexivity.
Qed.

Lemma resolve_def_found (update : Update) (a : string)
    (rest : list string) (status : AppealStatus) (w : World) (r : Appeal.t) :
  Py.isdigit a = true ->
  find (Sqlite.id_matches a) (rows (db w)) = Some r ->
  resolve_appeal_def update (mkContext (a :: rest)) status w
  = (Return tt,
     mkWorld (with_status status a (db w))
       (out w ++ [cursor_execute SqlUpdate; cursor_execute SqlSelectUser;
                  reply_text
                    (Py.capitalize (AppealStatusEnum.value status)
                       ++ " appeal #" ++ a) None;
                  send_message (Appeal.user_id r)
                    ("📨 Your appeal has been "
                       ++ AppealStatusEnum.value status ++ "!"
                       ++ Py.LF ++ Py.LF ++ "Reference ID: " ++ a)])).
Proof.
  intros Hdig Hfind.
  unfold resolve_appeal_def, Sqlite.update_status, Sqlite.select_user_id.
  unfold_m. cbn [args]. rewrite Hdig. cbn.
  rewrite (find_some_filter a _ r Hfind). cbn.
  rewrite find_after_update, Hfind. cbn.
  repeat rewrite <- app_assoc. reflexivity.
Qed.

(** With a digit string that names a row, the body sets the status of the
    rows with that id to the requested one, whatever it was before, leaves
    every other row and column alone, confirms to the sender with the
    argument as typed and sends the notification to the user id stored in
    the row. *)
Theorem resolve_body_known_id (update : Update) (a : string)
    (rest : list string) (status : AppealStatus) (w : World) (r : Appeal.t) :
  Py.isdigit a = true ->
  find (Sqlite.id_matches a) (rows (db w)) = Some r ->
  resolve_appeal_def update (mkContext (a :: rest)) status w
  = (Return tt,
     mkWorld (with_status status a (db w))
       (out w ++ [cursor_execute SqlUpdate; cursor_execute SqlSelectUser;
                  reply_text
                    (Py.capitalize (AppealStatusEnum.value status)
                       ++ " appeal #" ++ a) None;
                  send_message (Appeal.user_id r)
                    ("📨 Your appeal has been "
                       ++ AppealStatusEnum.value status ++ "!"
                       ++ Py.LF ++ Py.LF ++ "Reference ID: " ++ a)])).
Proof. apply resolve_def_found. Qed.

(** Whatever it is given, the body ends normally: every exception raised
    inside it is caught by one of its two [except] clauses. *)
Theorem resolve_body_never_raises (update : Update) (context : CallbackContext)
    (status : AppealStatus) (w : World) :
  fst (resolve_appeal_def update context status w) = Return tt.
Proof.
  unfold resolve_appeal_def, Sqlite.update_status, Sqlite.select_user_id.
  unfold_m.
  destruct (args context) as [|a rest]; cbn; [reflexivity|].
  destruct (Py.isdigit a); cbn; [|reflexivity].
  destruct (Z.of_nat (length (filter (Sqlite.id_matches a) (rows (db w))))
            =? 0); cbn; [reflexivity|].
  destruct (find (Sqlite.id_matches a) _); reflexivity.
Qed.

(** The usage line names a command the bot does not have: for [/approve] and
    [/reject] it reads "/approved" and "/rejected", and a command of that
    name is ignored by the dispatcher. *)
Theorem usage_names_no_command (update : Update) (status : AppealStatus)
    (w : World) :
  status <> PENDING ->
  let name := AppealStatusEnum.value status in
  snd (resolve_appeal_def update (mkContext []) status w)
  = mkWorld (db w)
      (out w ++ [logger_error "Error in resolve_appeal: list index out of range";
                 reply_text ("Usage: /" ++ name ++ " <appeal_id>") None])
  /\ ~ In name registered_commands
  /\ forall u c w', dispatch ADMIN_ID (Command name u c) w' = (Return tt, w').
Proof.
  intros Hst name. split; [|split].
  - unfold resolve_appeal_def. unfold_m. cbn. rewrite <- app_assoc. reflexivity.
  - unfold name. destruct status; [congruence| |];
      cbn; intros H; repeat destruct H as [H | H]; try discriminate H; exact H.
  - intros u c w'. unfold name. destruct status; [congruence| |]; reflexivity.
Qed.

(** *** The id as listed and as typed *)

Lemma decimal_of_digits (d : Decimal.uint) (acc : positive) :
  Py.all_digits (NilEmpty.string_of_uint d) = true
  /\ Py.decimal (Z.pos acc) (NilEmpty.string_of_uint d)
     = Z.pos (Pos.of_uint_acc d acc).
Proof.
  revert acc. induction d as [|d IH|d IH|d IH|d IH|d IH|d IH|d IH|d IH|d IH|d IH];
    intros acc; cbn [NilEmpty.string_of_uint Py.all_digits Py.decimal
                     Pos.of_uint_acc];
    [split; reflexivity | ..];
    match goal with
    | |- context [Pos.of_uint_acc d ?acc'] => destruct (IH acc') as [Hd Hv]
    end;
    (split; [exact Hd|]); rewrite <- Hv; f_equal;
    unfold Py.digit_val; cbn [N_of_ascii N_of_digits]; lia.
Qed.

Lemma decimal_of_uint (d : Decimal.uint) :
  Py.isdigit (NilZero.string_of_uint d) = true
  /\ Py.decimal 0 (NilZero.string_of_uint d) = Z.of_N (Pos.of_uint d).
Proof.
  assert (Hempty : forall d',
            Py.all_digits (NilEmpty.string_of_uint d') = true
            /\ Py.decimal 0 (NilEmpty.string_of_uint d')
               = Z.of_N (Pos.of_uint d')).
  { induction d' as [|d' IH|d' IH|d' IH|d' IH|d' IH|d' IH|d' IH|d' IH|d' IH|d' IH];
      cbn [NilEmpty.string_of_uint Py.all_digits Py.decimal Pos.of_uint];
      [split; reflexivity | exact IH | ..];
      match goal with
      | |- context [Pos.of_uint_acc d' ?acc] =>
          destruct (decimal_of_digits d' acc) as [Hd Hv]
      end;
      (split; [exact Hd|]); cbn [Z.of_N]; rewrite <- Hv; reflexivity. }
  destruct d; try (exact (Hempty _)); split; reflexivity.
Qed.

Lemma text_of_id_is_id (n : Z) :
  0 <= n -> Sqlite.text_as_integer (Py.str n) = Some n.
Proof.
  intros Hn. unfold Sqlite.text_as_integer, Py.str.
  destruct n as [|p|p]; [reflexivity | | lia].
  cbn [Z.to_int NilZero.string_of_int].
  destruct (decimal_of_uint (Pos.to_uint p)) as [Hd Hv].
  rewrite Hd, Hv, DecimalPos.Unsigned.of_to. reflexivity.
Qed.

Lemma find_same_test (p q : Appeal.t -> bool) (rs : list Appeal.t) :
  (forall x, p x = q x) -> find p rs = find q rs.
Proof.
  intros Hpq. induction rs as [|x rs IH]; [reflexivity|].
  cbn [find]. rewrite Hpq, IH. reflexivity.
Qed.

Lemma find_by_unique_id (rs : list Appeal.t) (r : Appeal.t) :
  NoDup (map Appeal.id rs) -> In r rs ->
  find (fun x => Appeal.id x =? Appeal.id r) rs = Some r.
Proof.
  induction rs as [|x rs IH]; intros Hnd Hin; [contradiction|].
  cbn [map] in Hnd. inversion Hnd as [|? ? Hx Hnd']; subst.
  cbn [find]. destruct Hin as [-> | Hin]; [rewrite Z.eqb_refl; reflexivity|].
  destruct (Appeal.id x =? Appeal.id r) eqn:Heq; [|apply IH; assumption].
  apply Z.eqb_eq in Heq. exfalso. apply Hx. rewrite Heq.
  apply in_map. exact Hin.
Qed.

(** The id that [/pending] prints for a row, typed back as the argument,
    names that row and no other: in a table without repeated ids the body
    sets the status of exactly the rows with this id and notifies the user
    who submitted the appeal. *)
Theorem resolve_body_by_listed_id (update : Update) (rest : list string)
    (status : AppealStatus) (w : World) (r : Appeal.t) :
  NoDup (map Appeal.id (rows (db w))) ->
  In r (rows (db w)) ->
  0 <= Appeal.id r ->
  let a := Py.str (Appeal.id r) in
  resolve_appeal_def update (mkContext (a :: rest)) status w
  = (Return tt,
     mkWorld
       (mkStore
          (map (fun x => if Appeal.id x =? Appeal.id r
                         then Appeal.set_status status x else x)
               (rows (db w)))
          (seq (db w)))
       (out w ++ [cursor_execute SqlUpdate; cursor_execute SqlSelectUser;
                  reply_text
                    (Py.capitalize (AppealStatusEnum.value status)
                       ++ " appeal #" ++ a) None;
                  send_message (Appeal.user_id r)
                    ("📨 Your appeal has been "
                       ++ AppealStatusEnum.value status ++ "!"
                       ++ Py.LF ++ Py.LF ++ "Reference ID: " ++ a)])).
Proof.
  intros Hnd Hin Hid a.
  assert (Htext : Sqlite.text_as_integer a = Some (Appeal.id r))
    by (apply text_of_id_is_id; exact Hid).
  assert (Hdig : Py.isdigit a = true).
  { unfold Sqlite.text_as_integer in Htext.
    destruct (Py.isdigit a); [reflexivity | discriminate Htext]. }
  assert (Hm : forall x, Sqlite.id_matches a x = (Appeal.id x =? Appeal.id r))
    by (intros x; unfold Sqlite.id_matches; rewrite Htext; reflexivity).
  assert (Hfind : find (Sqlite.id_matches a) (rows (db w)) = Some r).
  { rewrite (find_same_test _ _ (rows (db w)) Hm).
    apply find_by_unique_id; assumption. }
  rewrite (resolve_def_found update a rest status w r Hdig Hfind).
  unfold with_status. do 3 f_equal. apply map_ext. intros x. rewrite Hm.
  reflexivity.
Qed.

Lemma resolve_def_db (update : Update) (context : CallbackContext)
    (status : AppealStatus) (w : World) :
  db (snd (resolve_appeal_def update context status w))
  = match args context with
    | a :: _ => if Py.isdigit a then with_status status a (db w) else db w
    | [] => db w
    end.
Proof.
  unfold resolve_appeal_def, Sqlite.update_status, Sqlite.select_user_id.
  unfold_m.
  destruct (args context) as [|a rest]; cbn; [reflexivity|].
  destruct (Py.isdigit a); cbn; [|reflexivity].
  destruct (Z.of_nat (length (filter (Sqlite.id_matches a) (rows (db w))))
            =? 0) eqn:Hcount; cbn; [reflexivity|].
  rewrite find_after_update.
  destruct (find (Sqlite.id_matches a) (rows (db w))) eqn:Hfind;
    [reflexivity|].
  exfalso. apply Z.eqb_neq in Hcount. apply Hcount.
  assert (Hnone : forall l, find (Sqlite.id_matches a) l = None ->
                            filter (Sqlite.id_matches a) l = []).
  { induction l as [|x l IH]; cbn [find filter]; [reflexivity|].
    destruct (Sqlite.id_matches a x); [discriminate | exact IH]. }
  rewrite (Hnone _ Hfind). reflexivity.
Qed.

(** The body writes the status column only: after any call the table has the
    same rows in the same order with the same id, user_id, username,
    appeal_type and timestamp, and the same AUTOINCREMENT counter. *)
Theorem resolve_body_writes_status_only (update : Update)
    (context : CallbackContext) (status : AppealStatus) (w : World) :
  let s' := db (snd (resolve_appeal_def update context status w)) in
  map (fun r => (Appeal.id r, Appeal.user_id r, Appeal.username r,
                 Appeal.appeal_type r, Appeal.timestamp r)) (rows s')
  = map (fun r => (Appeal.id r, Appeal.user_id r, Appeal.username r,
                   Appeal.appeal_type r, Appeal.timestamp r)) (rows (db w))
  /\ seq s' = seq (db w).
Proof.
  cbn zeta. rewrite resolve_def_db.
  destruct (args context) as [|a rest]; [split; reflexivity|].
  destruct (Py.isdigit a); [|split; reflexivity].
  unfold with_status. cbn [rows seq]. split; [|reflexivity].
  rewrite map_map. apply map_ext. intros r.
  destruct (Sqlite.id_matches a r); reflexivity.
Qed.

(** The body does not look at the current status, so a resolution can be
    overridden: after two calls in a row for the same arguments the table is
    what the second call alone would have left. *)
Theorem resolve_body_last_call_wins (update1 update2 : Update)
    (context : CallbackContext) (first second : AppealStatus) (w : World) :
  db (snd (resolve_appeal_def update2 context second
             (snd (resolve_appeal_def update1 context first w))))
  = db (snd (resolve_appeal_def update2 context second w)).
Proof.
  rewrite !resolve_def_db.
  destruct (args context) as [|a rest]; [reflexivity|].
  destruct (Py.isdigit a); [|reflexivity].
  unfold with_status. cbn [rows seq]. f_equal.
  rewrite map_map. apply map_ext. intros r.
  destruct (Sqlite.id_matches a r) eqn:Hr.
  - change (Sqlite.id_matches a (Appeal.set_status first r))
      with (Sqlite.id_matches a r). rewrite Hr. reflexivity.
  - rewrite Hr. reflexivity.
Qed.

(** *** Selections that fail *)

(** A valid selection that the storage layer cannot take leaves the handler
    with the layer's exception, the INSERT call being the only outward call:
    the table is as before, the keyboard message is not edited and the
    administrator hears nothing.  The three reasons, in the order in which
    they are met: a user id that does not fit 64 bits, no rowid left, no
    handle for the NOT NULL column. *)
Theorem unstorable_selection_raises (now : Clock) (update : Update)
    (context : CallbackContext) (w : World) :
  let uid := User.id (effective_user update) in
  let last := Z.max (seq (db w)) (Sqlite.max_rowid (rows (db w))) in
  callback_data update = "unban" \/ callback_data update = "admin" ->
  ~ (Sqlite.min_int64 <= uid <= Sqlite.max_int64
     /\ last < Sqlite.max_int64
     /\ User.username (effective_user update) <> None) ->
  exists e,
    dispatch ADMIN_ID (CallbackQuery now update context) w
    = (Raise e, mkWorld (db w) (out w ++ [cursor_execute SqlInsert]))
    /\ (e = OverflowError
          /\ ~ Sqlite.min_int64 <= uid <= Sqlite.max_int64
        \/ e = OperationalError
           /\ Sqlite.min_int64 <= uid <= Sqlite.max_int64
           /\ Sqlite.max_int64 <= last
        \/ e = IntegrityError
           /\ Sqlite.min_int64 <= uid <= Sqlite.max_int64
           /\ last < Sqlite.max_int64
           /\ User.username (effective_user update) = None).
Proof.
  intros uid last Hdata Hnot. subst uid last.
  destruct (parse_valid_payload _ w Hdata) as (t & Hparse & _ & _).
  cbn [dispatch].
  unfold handle_appeal, Sqlite.insert_appeal, Sqlite.bind_int.
  unfold_m. rewrite Hparse. cbn.
  destruct ((Sqlite.min_int64 <=? User.id (effective_user update))
            && (User.id (effective_user update) <=? Sqlite.max_int64)) eqn:Hr;
    cbn.
  - apply andb_true_iff in Hr. destruct Hr as [Hlo Hhi].
    apply Z.leb_le in Hlo, Hhi.
    destruct (Sqlite.max_int64 <=?
              Z.max (seq (db w)) (Sqlite.max_rowid (rows (db w)))) eqn:Hfull;
      cbn.
    + apply Z.leb_le in Hfull. exists OperationalError.
      split; [reflexivity|]. right. left. repeat split; assumption.
    + apply Z.leb_gt in Hfull.
      destruct (User.username (effective_user update)) as [name|] eqn:Hname;
        cbn.
      * exfalso. apply Hnot. repeat split; try assumption. discriminate.
      * exists IntegrityError. split; [reflexivity|]. right. right.
        repeat split; assumption.
  - exists OverflowError. split; [reflexivity|]. left. split; [reflexivity|].
    intros [Hlo Hhi]. apply andb_false_iff in Hr.
    destruct Hr as [Hr | Hr]; apply Z.leb_gt in Hr; lia.
Qed.

End Handlers.

(** * Status transitions *)

Section Transitions.

Variable ADMIN_ID : Z.

Lemma with_status_row (status : AppealStatus) (a : string) (s : Store)
    (i : nat) (r : Appeal.t) :
  nth_error (rows s) i = Some r ->
  nth_error (rows (with_status status a s)) i
  = Some (if Sqlite.id_matches a r then Appeal.set_status status r else r).
Proof.
  intros Hi. unfold with_status. cbn [rows].
  rewrite nth_error_map, Hi. reflexivity.
Qed.

Lemma resolve_def_row (update : Update) (context : CallbackContext)
    (status : AppealStatus) (w : World) (i : nat) (r : Appeal.t) :
  nth_error (rows (db w)) i = Some r ->
  exists r',
    nth_error (rows (db (snd (resolve_appeal_def update context status w)))) i
    = Some r'
    /\ Appeal.id r' = Appeal.id r
    /\ Appeal.status r' = if names context r then status else Appeal.status r.
Proof.
  intros Hi. rewrite resolve_def_db. unfold names.
  destruct (args context) as [|a rest];
    [exists r; repeat split; exact Hi|].
  destruct (Py.isdigit a) eqn:Hdig.
  - rewrite (with_status_row status a (db w) i r Hi).
    destruct (Sqlite.id_matches a r); eexists; repeat split.
  - exists r. split; [exact Hi | split; [reflexivity|]].
    unfold Sqlite.id_matches, Sqlite.text_as_integer. rewrite Hdig.
    reflexivity.
Qed.

Lemma perform_row (op : Operation) (w : World) (i : nat) (r : Appeal.t) :
  nth_error (rows (db w)) i = Some r ->
  exists r',
    nth_error (rows (db (perform ADMIN_ID op w))) i = Some r'
    /\ Appeal.id r' = Appeal.id r
    /\ Appeal.status r' = status_after op r.
Proof.
  intros Hi. destruct op as [ev | update context | update context];
    cbn [perform status_after].
  - exists r. split; [|split; reflexivity].
    apply (run_keeps_row ADMIN_ID [ev] w i r Hi).
  - apply resolve_def_row, Hi.
  - apply resolve_def_row, Hi.
Qed.


End Transitions.



(** * The further properties at sample inputs *)

Lemma admin_only_rejects_others_witness :
  call2 (admin_only Sample.ADMIN (def3 resolve_appeal_def))
    (mkUpdate Sample.user7 EmptyString) (mkContext ["1"]) Sample.one_pending
  = (Return tt,
     mkWorld (db Sample.one_pending)
       (out Sample.one_pending ++ [reply_text "⛔ Unauthorized access!" None])).
Proof.
  apply (admin_only_rejects_others Sample.ADMIN (def3 resolve_appeal_def)
           (mkUpdate Sample.user7 EmptyString) (mkContext ["1"])
           Sample.one_pending).
  vm_compute. discriminate.
Defined.

Lemma commands_never_change_table_witness :
  db (run Sample.ADMIN
        [Sample.command "approve" Sample.admin ["1"];
         Sample.command "pending" Sample.admin ["abc"];
         Sample.command "start" Sample.user7 [];
         Sample.command "reject" Sample.user7 ["1"];
         Sample.command "pending" Sample.admin []]
        Sample.one_pending)
  = db Sample.one_pending.
Proof.
  apply (commands_never_change_table Sample.ADMIN). reflexivity.
Defined.

Lemma unknown_command_ignored_witness :
  dispatch Sample.ADMIN (Sample.command "approved" Sample.admin ["1"])
    Sample.one_pending
  = (Return tt, Sample.one_pending).
Proof.
  apply (unknown_command_ignored Sample.ADMIN "approved").
  intros [H | [H | [H | [H | [H | []]]]]]; discriminate H.
Defined.

Lemma selection_without_handle_is_lost_witness :
  dispatch Sample.ADMIN
    (CallbackQuery Sample.noon (mkUpdate Fixtures.nameless "unban")
       (mkContext []))
    Sample.one_pending
  = (Raise IntegrityError,
     mkWorld (db Sample.one_pending)
       (out Sample.one_pending ++ [cursor_execute SqlInsert])).
Proof.
  apply (selection_without_handle_is_lost Sample.ADMIN Sample.noon
           (mkUpdate Fixtures.nameless "unban") (mkContext [])
           Sample.one_pending).
  - left. reflexivity.
  - reflexivity.
  - vm_compute. split; discriminate.
  - vm_compute. reflexivity.
Defined.

Lemma selection_records_sender_and_notifies_admin_witness :
  exists r text,
    dispatch Sample.ADMIN (Sample.select "admin") Sample.fresh
    = (Return tt,
       mkWorld (mkStore [r] (Appeal.id r))
         [cursor_execute SqlInsert;
          edit_message_text "✅ Admin appeal submitted!";
          send_message 42 text])
    /\ Appeal.user_id r = 7
    /\ Appeal.username r = "seven".
Proof.
  destruct (selection_records_sender_and_notifies_admin Sample.ADMIN
              Sample.noon (mkUpdate Sample.user7 "admin") (mkContext [])
              Sample.fresh "seven")
    as (r & text & Hrun & Huid & Hname & _).
  - right. reflexivity.
  - reflexivity.
  - vm_compute. split; discriminate.
  - vm_compute. reflexivity.
  - exists r, text. split; [exact Hrun | split; [exact Huid | exact Hname]].
Defined.

Lemma repeated_selection_stores_two_rows_witness :
  exists r1 r2,
    rows (db (run Sample.ADMIN
                [Sample.select "unban";
                 CallbackQuery Fixtures.later (mkUpdate Sample.user7 "unban")
                   (mkContext [])]
                Sample.fresh))
    = [r1; r2]
    /\ Appeal.id r2 = Appeal.id r1 + 1
    /\ Appeal.timestamp r1 = "2024-01-01T12:00:00"
    /\ Appeal.timestamp r2 = "2024-01-01T12:00:03".
Proof.
  destruct (repeated_selection_stores_two_rows Sample.ADMIN Sample.noon
              Fixtures.later (mkUpdate Sample.user7 "unban") (mkContext [])
              Sample.fresh "seven")
    as (r1 & r2 & Hrows & Hid & Ht1 & Hr2).
  - left. reflexivity.
  - reflexivity.
  - vm_compute. split; discriminate.
  - vm_compute. reflexivity.
  - exists r1, r2.
    split; [exact Hrows | split; [exact Hid | split; [exact Ht1|]]].
    rewrite Hr2. reflexivity.
Defined.

Lemma pending_replies_iff_witness :
  ~ exists w',
      dispatch Sample.ADMIN (Sample.command "pending" Sample.admin ["1x"])
        Sample.one_pending
      = (Return tt, w').
Proof.
  intros H.
  apply (pending_replies_iff Sample.ADMIN Sample.by_admin (mkContext ["1x"])
           Sample.one_pending eq_refl) in H.
  - destruct H as [H | (a & rest & k & Hargs & Hint & _)].
    + discriminate H.
    + injection Hargs as <- <-. discriminate Hint.
  - intros a rest Hargs. injection Hargs as <- <-. reflexivity.
Defined.

Lemma pending_negative_page_shows_first_rows_witness :
  dispatch Sample.ADMIN (Sample.command "pending" Sample.admin ["-1"])
    Sample.seven_pending
  = (Return tt,
     mkWorld (db Sample.seven_pending)
       (out Sample.seven_pending
          ++ [cursor_execute SqlCount; cursor_execute SqlSelectPage;
              pending_reply (-1) 5 7
                (firstn 5 (pending_rows (db Sample.seven_pending)))])).
Proof.
  apply (pending_negative_page_shows_first_rows Sample.ADMIN Sample.by_admin
           "-1" [] Sample.seven_pending (-1)).
  - reflexivity.
  - reflexivity.
  - lia.
  - vm_compute. discriminate.
Defined.

Lemma pages_cover_pending_once_witness :
  (Sqlite.limit_offset 5 (0 * 5) (pending_rows (db Sample.seven_pending))
     ++ Sqlite.limit_offset 5 (1 * 5) (pending_rows (db Sample.seven_pending)))%list
  = pending_rows (db Sample.seven_pending).
Proof.
  rewrite <- (pages_cover_pending_once (db Sample.seven_pending) 2) at 3.
  - cbn [List.seq map concat Z.of_nat Pos.of_succ_nat Pos.succ].
    rewrite app_nil_r. reflexivity.
  - vm_compute. lia.
Defined.

Lemma new_appeal_shows_on_last_page_witness :
  exists r w1 markup,
    dispatch Sample.ADMIN (Sample.select "unban") Sample.seven_pending
    = (Return tt, w1)
    /\ rows (db w1) = (rows (db Sample.seven_pending) ++ [r])%list
    /\ Appeal.id r = 8
    /\ dispatch Sample.ADMIN (Sample.command "pending" Sample.admin ["1"]) w1
       = (Return tt,
          mkWorld (db w1)
            (out w1
               ++ [cursor_execute SqlCount; cursor_execute SqlSelectPage;
                   reply_text
                     (Py.join Py.LF
                        (("📋 Pending Appeals (Page 2):" ++ Py.LF)
                           :: map render_appeal
                                (skipn 5 (pending_rows (db Sample.seven_pending))
                                   ++ [r])))
                     markup])).
Proof.
  destruct (new_appeal_shows_on_last_page Sample.ADMIN Sample.noon
              (mkUpdate Sample.user7 "unban") (mkContext [])
              Sample.seven_pending "seven" Sample.by_admin "1" [])
    as (r & w1 & markup & Hsel & Hrows & Hrid & _ & _ & _ & _ & _ & Hlist).
  - left. reflexivity.
  - reflexivity.
  - vm_compute. split; discriminate.
  - vm_compute. reflexivity.
  - reflexivity.
  - reflexivity.
  - vm_compute. discriminate.
  - exists r, w1, markup.
    split; [exact Hsel | split; [exact Hrows | split; [exact Hrid | exact Hlist]]].
Defined.

Lemma resolve_body_usage_witness :
  exists reason,
    resolve_appeal_def Sample.by_admin (mkContext ["12a"]) REJECTED
      Sample.one_pending
    = (Return tt,
       mkWorld (db Sample.one_pending)
         (out Sample.one_pending
            ++ [logger_error ("Error in resolve_appeal: " ++ reason);
                reply_text "Usage: /rejected <appeal_id>" None])).
Proof.
  apply (resolve_body_usage Sample.by_admin (mkContext ["12a"]) REJECTED
           Sample.one_pending).
  right. exists "12a", []. split; [reflexivity | split; reflexivity].
Defined.

Lemma resolve_body_unknown_id_witness :
  resolve_appeal_def Sample.by_admin (mkContext ["999"]) APPROVED
    Sample.one_pending
  = (Return tt,
     mkWorld (db Sample.one_pending)
       (out Sample.one_pending
          ++ [cursor_execute SqlUpdate;
              reply_text "⚠ Appeal ID not found!" None])).
Proof.
  apply (resolve_body_unknown_id Sample.by_admin "999" [] APPROVED
           Sample.one_pending).
  - reflexivity.
  - intros r [<- | []]. vm_compute. discriminate.
Defined.

Lemma resolve_body_known_id_witness :
  resolve_appeal_def Sample.by_admin (mkContext ["01"]) REJECTED
    Sample.one_approved
  = (Return tt,
     mkWorld (with_status REJECTED "01" (db Sample.one_approved))
       [cursor_execute SqlUpdate; cursor_execute SqlSelectUser;
        reply_text "Rejected appeal #01" None;
        send_message 7
          ("📨 Your appeal has been rejected!" ++ Py.LF ++ Py.LF
             ++ "Reference ID: 01")]).
Proof.
  apply (resolve_body_known_id Sample.by_admin "01" [] REJECTED
           Sample.one_approved Fixtures.approved_row).
  - reflexivity.
  - reflexivity.
Defined.

Lemma usage_names_no_command_witness :
  ~ In "approved" registered_commands.
Proof.
  assert (Hst : APPROVED <> PENDING) by discriminate.
  exact (proj1 (proj2 (usage_names_no_command Sample.ADMIN Sample.by_admin
                         APPROVED Sample.fresh Hst))).
Defined.

Lemma resolve_body_by_listed_id_witness :
  resolve_appeal_def Sample.by_admin (mkContext ["1"]) APPROVED
    Sample.one_pending
  = (Return tt,
     mkWorld
       (mkStore [Appeal.set_status APPROVED Fixtures.the_row] 1)
       (out Sample.one_pending
          ++ [cursor_execute SqlUpdate; cursor_execute SqlSelectUser;
              reply_text "Approved appeal #1" None;
              send_message 7
                ("📨 Your appeal has been approved!" ++ Py.LF ++ Py.LF
                   ++ "Reference ID: 1")])).
Proof.
  apply (resolve_body_by_listed_id Sample.by_admin [] APPROVED
           Sample.one_pending Fixtures.the_row).
  - vm_compute. constructor; [intros [] | constructor].
  - left. reflexivity.
  - vm_compute. discriminate.
Defined.

Lemma unstorable_selection_raises_witness :
  exists e,
    dispatch Sample.ADMIN
      (CallbackQuery Sample.noon (mkUpdate Fixtures.huge_id "admin")
         (mkContext []))
      Sample.one_pending
    = (Raise e,
       mkWorld (db Sample.one_pending)
         (out Sample.one_pending ++ [cursor_execute SqlInsert]))
    /\ e = OverflowError.
Proof.
  destruct (unstorable_selection_raises Sample.ADMIN Sample.noon
              (mkUpdate Fixtures.huge_id "admin") (mkContext [])
              Sample.one_pending)
    as (e & Hrun & [[He _] | [(_ & [_ Hhi] & _) | (_ & [_ Hhi] & _)]]).
  - right. reflexivity.
  - intros ([_ Hhi] & _). vm_compute in Hhi. apply Hhi. reflexivity.
  - exists e. split; [exact Hrun | exact He].
  - exfalso. vm_compute in Hhi. apply Hhi. reflexivity.
  - exfalso. vm_compute in Hhi. apply Hhi. reflexivity.
Defined.
